(** * Plane placement geometry of yt_idv ([yt_idv/scene_data/plane.py])

    A shallow embedding of [BasePlane._set_plane] and [PlaneData.add_data].

    Numbers.  The program computes with numpy [float64] arrays.  Here a
    number is an exact real or [NaN]: rounding (including the final cast
    to single precision) is not part of the model, but the one exceptional
    value the program can really produce in exact arithmetic is: a vector
    is only ever divided by its own Euclidean norm, that norm is zero only
    for the zero vector, and numpy evaluates [0. / 0.] to [nan] (with a
    warning, not an exception).  [nan] is absorbing for [+], [-], [*] and
    compares unequal to everything.  Statements in this model are
    statements of exact geometry; overflow, underflow and infinities are
    outside it.  Where a statement is about rounding itself (an absolute
    tolerance), the module [IEEE] at the end evaluates the same lines in
    binary64 with the cast to binary32.

    Objects.  A [plane] is an object whose [data_source] has been
    assigned; [set_plane_on] covers the object on which reading it
    raises. *)

From Stdlib Require Import Reals Lra List String ZArith Bool.
Import ListNotations.

Local Open Scope R_scope.

(** ** Numbers *)

Module Num.

Inductive num : Type :=
| Fin (r : R)
| NaN.

Definition lift2 (f : R -> R -> R) (a b : num) : num :=
  match a, b with
  | Fin x, Fin y => Fin (f x y)
  | _, _ => NaN
  end.

Definition add : num -> num -> num := lift2 Rplus.
Definition sub : num -> num -> num := lift2 Rminus.
Definition mul : num -> num -> num := lift2 Rmult.

(** numpy true division; a zero divisor gives a non-finite quotient. *)
Definition div (a b : num) : num :=
  match a, b with
  | Fin x, Fin y => if Req_dec_T y 0 then NaN else Fin (x / y)
  | _, _ => NaN
  end.

(** [np.sqrt]: [nan] below zero. *)
Definition nsqrt (a : num) : num :=
  match a with
  | Fin x => if Rlt_dec x 0 then NaN else Fin (R_sqrt.sqrt x)
  | NaN => NaN
  end.

(** [a == 0] *)
Definition is_zero (a : num) : bool :=
  match a with
  | Fin x => if Req_dec_T x 0 then true else false
  | NaN => false
  end.

(** [a != 0] *)
Definition is_nonzero (a : num) : bool := negb (is_zero a).

End Num.

Export Num.

Declare Scope num_scope.
Delimit Scope num_scope with num.
Bind Scope num_scope with num.
Infix "+" := Num.add : num_scope.
Infix "-" := Num.sub : num_scope.
Infix "*" := Num.mul : num_scope.
Infix "/" := Num.div : num_scope.

(** ** Arrays of shape (3,) *)

Record vec3 : Type := V3 { vx : num; vy : num; vz : num }.

Definition fin3 (x y z : R) : vec3 := V3 (Fin x) (Fin y) (Fin z).

Definition nan3 : vec3 := V3 NaN NaN NaN.

(** [np.zeros((3,))] *)
Definition zeros3 : vec3 := fin3 0 0 0.

Definition vadd (a b : vec3) : vec3 :=
  V3 (vx a + vx b)%num (vy a + vy b)%num (vz a + vz b)%num.

Definition vsub (a b : vec3) : vec3 :=
  V3 (vx a - vx b)%num (vy a - vy b)%num (vz a - vz b)%num.

(** scalar * array *)
Definition vscale (k : num) (a : vec3) : vec3 :=
  V3 (k * vx a)%num (k * vy a)%num (k * vz a)%num.

(** array / scalar *)
Definition vdiv (a : vec3) (k : num) : vec3 :=
  V3 (vx a / k)%num (vy a / k)%num (vz a / k)%num.

Definition dot (a b : vec3) : num :=
  (vx a * vx b + vy a * vy b + vz a * vz b)%num.

(** [np.linalg.norm] of a 1-d array: the 2-norm. *)
Definition norm (a : vec3) : num := nsqrt (dot a a).

(** [np.cross] *)
Definition cross (a b : vec3) : vec3 :=
  V3 (vy a * vz b - vz a * vy b)%num
     (vz a * vx b - vx a * vz b)%num
     (vx a * vy b - vy a * vx b)%num.

(** Scalar triple product [a . (b x c)], the determinant of the matrix
    with columns [a], [b], [c]; it is [1] for a right-handed orthonormal
    triple and [-1] for a left-handed one. *)
Definition det3 (a b c : vec3) : num := dot a (cross b c).

(** [v[i]] and [v[i] = x] for a Python index: negative indices count from
    the end, anything outside [-3 <= i < 3] raises [IndexError] ([None]). *)
Definition norm_index3 (i : Z) : option nat :=
  if (0 <=? i)%Z && (i <? 3)%Z then Some (Z.to_nat i)
  else if (-3 <=? i)%Z && (i <? 0)%Z then Some (Z.to_nat (i + 3))
  else None.

Definition set_item3 (v : vec3) (i : Z) (x : num) : option vec3 :=
  match norm_index3 i with
  | Some 0%nat => Some (V3 x (vy v) (vz v))
  | Some 1%nat => Some (V3 (vx v) x (vz v))
  | Some _ => Some (V3 (vx v) (vy v) x)
  | None => None
  end.

(** ** Arrays of shape (4,) and (4,4) *)

Definition vec := list num.
Definition mat := list vec.

Definition nth_num (v : vec) (i : nat) : num := nth i v NaN.

(** [np.eye(n)] *)
Definition eye (n : nat) : mat :=
  map (fun i => map (fun j => if Nat.eqb i j then Fin 1 else Fin 0) (seq 0 n))
      (seq 0 n).

Fixpoint set_nth {A : Type} (l : list A) (i : nat) (x : A) : list A :=
  match l, i with
  | [], _ => []
  | _ :: t, O => x :: t
  | h :: t, S i' => h :: set_nth t i' x
  end.

(** [m[i, j] = x] *)
Definition set_entry (m : mat) (i j : nat) (x : num) : mat :=
  set_nth m i (set_nth (nth i m []) j x).

(** [m[0:3, j] = v] *)
Definition set_col3 (m : mat) (j : nat) (v : vec3) : mat :=
  set_entry (set_entry (set_entry m 0 j (vx v)) 1 j (vy v)) 2 j (vz v).

Definition vdot (a b : vec) : num :=
  fold_left Num.add (map (fun p => (fst p * snd p)%num) (combine a b)) (Fin 0).

Definition column (m : mat) (j : nat) : vec := map (fun row => nth_num row j) m.

(** [np.matmul(a, b)] for 2-d [a], [b] *)
Definition matmul (a b : mat) : mat :=
  map (fun row => map (fun j => vdot row (column b j)) (seq 0 (List.length (hd [] b)))) a.

(** [np.matmul(a, v)] for 2-d [a] and 1-d [v] *)
Definition matvec (a : mat) (v : vec) : vec := map (fun row => vdot row v) a.

(** [v[0:3]] of a 1-d array with at least three entries *)
Definition head3 (v : vec) : vec3 := V3 (nth_num v 0) (nth_num v 1) (nth_num v 2).

(** [m.astype("f4")]: the cast rounds each entry to single precision;
    on exact numbers it changes nothing. *)
Definition astype_f4 (m : mat) : mat := m.

(** ** Objects *)

(** A fixed-resolution buffer field: a 2-d array. *)
Definition image := list (list R).

(** The class of a data source as the program's tests see it:
    [type(ds) == YTSlice], [type(ds) == YTCuttingPlane] and
    [isinstance(ds, YTProj)].  The first two are identity tests, so an
    instance of a subclass of [YTSlice] or [YTCuttingPlane] is [YTOther]. *)
Inductive ds_class : Type := YTSlice | YTCuttingPlane | YTProj | YTOther.

Definition ds_class_eqb (a b : ds_class) : bool :=
  match a, b with
  | YTSlice, YTSlice | YTCuttingPlane, YTCuttingPlane
  | YTProj, YTProj | YTOther, YTOther => true
  | _, _ => false
  end.

(** The attributes of a yt data container that the program reads:
    [axis] and [coord] of a slice or projection, [orienter.normal_vector],
    [orienter.north_vector] and [center.value] of a cutting plane, and
    [to_frb(width, resolution=dims)[field]]. *)
Record data_container : Type := {
  ds_type : ds_class;
  axis : Z;
  coord : R;
  normal_vector : vec3;
  north_vector : vec3;
  center_value : vec3;
  to_frb : R -> nat * nat -> string -> image
}.

(** The attributes of a [PlaneData] instance.  [normal], [center] and
    [data] are traits without a default ([None]: not assigned yet);
    [east_vec] and [north_vec] default to Python's [None]; [width] and
    [height] are [Float] traits (default [0.0]); [size] defaults to [-1];
    [to_worldview] does not exist before [_set_plane] ran. *)
Record plane : Type := {
  data_source : data_container;
  data : option image;
  normal : option vec3;
  center : option vec3;
  width : R;
  height : R;
  east_vec : option vec3;
  north_vec : option vec3;
  to_worldview : option mat;
  size : Z
}.

Definition set_data (x : image) (p : plane) : plane :=
  {| data_source := data_source p; data := Some x; normal := normal p;
     center := center p; width := width p; height := height p;
     east_vec := east_vec p; north_vec := north_vec p;
     to_worldview := to_worldview p; size := size p |}.

Definition set_normal (x : vec3) (p : plane) : plane :=
  {| data_source := data_source p; data := data p; normal := Some x;
     center := center p; width := width p; height := height p;
     east_vec := east_vec p; north_vec := north_vec p;
     to_worldview := to_worldview p; size := size p |}.

Definition set_center (x : vec3) (p : plane) : plane :=
  {| data_source := data_source p; data := data p; normal := normal p;
     center := Some x; width := width p; height := height p;
     east_vec := east_vec p; north_vec := north_vec p;
     to_worldview := to_worldview p; size := size p |}.

Definition set_width (x : R) (p : plane) : plane :=
  {| data_source := data_source p; data := data p; normal := normal p;
     center := center p; width := x; height := height p;
     east_vec := east_vec p; north_vec := north_vec p;
     to_worldview := to_worldview p; size := size p |}.

Definition set_height (x : R) (p : plane) : plane :=
  {| data_source := data_source p; data := data p; normal := normal p;
     center := center p; width := width p; height := x;
     east_vec := east_vec p; north_vec := north_vec p;
     to_worldview := to_worldview p; size := size p |}.

Definition set_east_vec (x : vec3) (p : plane) : plane :=
  {| data_source := data_source p; data := data p; normal := normal p;
     center := center p; width := width p; height := height p;
     east_vec := Some x; north_vec := north_vec p;
     to_worldview := to_worldview p; size := size p |}.

Definition set_north_vec (x : vec3) (p : plane) : plane :=
  {| data_source := data_source p; data := data p; normal := normal p;
     center := center p; width := width p; height := height p;
     east_vec := east_vec p; north_vec := Some x;
     to_worldview := to_worldview p; size := size p |}.

Definition set_to_worldview (x : mat) (p : plane) : plane :=
  {| data_source := data_source p; data := data p; normal := normal p;
     center := center p; width := width p; height := height p;
     east_vec := east_vec p; north_vec := north_vec p;
     to_worldview := Some x; size := size p |}.

Definition set_size (x : Z) (p : plane) : plane :=
  {| data_source := data_source p; data := data p; normal := normal p;
     center := center p; width := width p; height := height p;
     east_vec := east_vec p; north_vec := north_vec p;
     to_worldview := to_worldview p; size := x |}.

(** ** Methods: state and exceptions

    A method is a function of the object; it returns a value or raises,
    and in both cases leaves the object as its assignments made it. *)

Inductive exn : Type :=
| ValueError_not_normal_to_axis     (* plane.py, line 51 *)
| ValueError_unexpected_data_source (* plane.py, line 157 *)
| IndexError                        (* index out of bounds for axis 0 *)
| TraitError                        (* a required trait read before assignment *)
| AttributeError.                   (* an attribute read before assignment *)

Definition M (A : Type) : Type := plane -> (exn + A) * plane.

Definition ret {A : Type} (a : A) : M A := fun p => (inr a, p).

Definition raise {A : Type} (e : exn) : M A := fun p => (inl e, p).

Definition bind {A B : Type} (m : M A) (k : A -> M B) : M B :=
  fun p =>
    match m p with
    | (inl e, p') => (inl e, p')
    | (inr a, p') => k a p'
    end.

Definition gets {A : Type} (f : plane -> A) : M A := fun p => (inr (f p), p).

Definition assign (f : plane -> plane) : M unit := fun p => (inr tt, f p).

Definition read {A : Type} (f : plane -> option A) (e : exn) : M A :=
  fun p => match f p with Some a => (inr a, p) | None => (inl e, p) end.

Definition of_option {A : Type} (o : option A) (e : exn) : M A :=
  match o with Some a => ret a | None => raise e end.

Notation "x <- m ;; k" := (bind m (fun x => k))
  (at level 61, m at next level, right associativity).
Notation "' pat <- m ;; k" := (bind m (fun x => match x with pat => k end))
  (at level 61, pat pattern, m at next level, right associativity).
Notation "m ;; k" := (bind m (fun _ => k))
  (at level 61, right associativity).

(** ** [BasePlane._set_plane] *)

(** Lines 41-52: the in-plane vectors of a plane normal to a coordinate
    axis; [None] stands for the [else] branch, which raises. *)
Definition axis_basis (unit_normal : vec3) : option (vec3 * vec3) :=
  if is_zero (vx unit_normal) && is_zero (vy unit_normal) then
    Some (fin3 1 0 0, fin3 0 1 0)
  else if is_zero (vy unit_normal) && is_zero (vz unit_normal) then
    Some (fin3 0 1 0, fin3 0 0 1)
  else if is_zero (vx unit_normal) && is_zero (vz unit_normal) then
    Some (fin3 1 0 0, fin3 0 0 1)
  else None.

(** Lines 39-55: the unit normal and the in-plane coordinate vectors,
    basis_u = east, basis_v = north. *)
Definition resolve_basis : M (vec3 * vec3 * vec3) :=
  n <- read normal TraitError ;;
  let unit_normal := vdiv n (norm n) in
  e <- gets east_vec ;;
  no <- gets north_vec ;;
  match e, no with
  | Some east, Some north => ret (east, north, unit_normal)
  | _, _ =>
      match axis_basis unit_normal with
      | Some (east, north) => ret (east, north, unit_normal)
      | None => raise ValueError_not_normal_to_axis
      end
  end.

(** Lines 58-60 *)
Definition scale_matrix (w h : R) : mat :=
  set_entry (set_entry (eye 4) 0 0 (Fin w)) 1 1 (Fin h).

(** Lines 63-66 *)
Definition to_world_matrix (east north unit_normal : vec3) : mat :=
  set_col3 (set_col3 (set_col3 (eye 4) 0 east) 1 north) 2 unit_normal.

(** Lines 69-70 (and 82-83) *)
Definition translate_matrix (t : vec3) : mat := set_col3 (eye 4) 3 t.

(** Line 73 *)
Definition combined (east north unit_normal c : vec3) (w h : R) : mat :=
  matmul (translate_matrix c)
         (matmul (to_world_matrix east north unit_normal) (scale_matrix w h)).

(** The centre of the texture square, [np.array([0.5, 0.5, 0., 1.])]. *)
Definition tex_center : vec := [Fin (5 / 10); Fin (5 / 10); Fin 0; Fin 1].

(** Lines 81-84 *)
Definition recenter (m : mat) (c : vec3) : mat :=
  let true_center := matvec m tex_center in
  let extra_translate := translate_matrix (vsub c (head3 true_center)) in
  matmul extra_translate m.

Definition _set_plane : M unit :=
  '(east_vec, north_vec, unit_normal) <- resolve_basis ;;
  w <- gets width ;;
  h <- gets height ;;
  c <- read center TraitError ;;
  assign (set_to_worldview (combined east_vec north_vec unit_normal c w h)) ;;
  ds <- gets data_source ;;
  (if ds_class_eqb (ds_type ds) YTCuttingPlane then
     m <- read to_worldview AttributeError ;;
     c <- read center TraitError ;;
     assign (set_to_worldview (recenter m c))
   else ret tt) ;;
  m <- read to_worldview AttributeError ;;
  assign (set_to_worldview (astype_f4 m)).

(** ** [BasePlane.add_data]

    After [_set_plane] the method fills the vertex array with the four
    corners of the texture square and two triangles (six indices) and
    uploads the texture; of that only [size] is an attribute kept here. *)
Definition BasePlane_add_data : M unit :=
  _set_plane ;;
  assign (set_size 6).

(** ** [PlaneData.add_data] *)

(** Lines 138-158: the normal and the center by the class of the data
    source; for a cutting plane also the in-plane vectors. *)
Definition derive_normal_center (ds : data_container) : M (vec3 * vec3) :=
  match ds_type ds with
  | YTSlice =>
      normal <- of_option (set_item3 zeros3 (axis ds) (Fin 1)) IndexError ;;
      center <- of_option (set_item3 zeros3 (axis ds) (Fin (coord ds))) IndexError ;;
      ret (normal, center)
  | YTCuttingPlane =>
      assign (set_north_vec (north_vector ds)) ;;
      nv <- read north_vec AttributeError ;;
      assign (set_north_vec (vdiv nv (norm nv))) ;;
      let normal := normal_vector ds in
      let normal := vdiv normal (norm normal) in
      nv <- read north_vec AttributeError ;;
      assign (set_east_vec (cross normal nv)) ;;
      ret (normal, center_value ds)
  | YTProj =>
      normal <- of_option (set_item3 zeros3 (axis ds) (Fin 1)) IndexError ;;
      center <- of_option (set_item3 zeros3 (axis ds) (Fin 1)) IndexError ;;
      ret (normal, center)
  | YTOther => raise ValueError_unexpected_data_source
  end.

(** Lines 160-161 *)
Definition translated (translate : R) (center normal : vec3) : vec3 :=
  if is_nonzero (Fin translate) then vadd center (vscale (Fin translate) normal)
  else center.

Definition add_data (field : string) (width : R) (frb_dims : nat * nat)
    (translate : R) : M unit :=
  ds <- gets data_source ;;
  assign (set_data (to_frb ds width frb_dims field)) ;;
  '(normal, center) <- derive_normal_center ds ;;
  let center := translated translate center normal in
  assign (set_center center) ;;
  assign (set_normal normal) ;;
  assign (set_width width) ;;
  assign (set_height width) ;;
  BasePlane_add_data.

(** * Properties *)

(** ** Numbers and vectors *)

Section NumFacts.

Lemma div_fin (x y : R) : y <> 0 -> (Fin x / Fin y)%num = Fin (x / y).
Proof.
  intros Hy. unfold Num.div. destruct (Req_dec_T y 0) as [E | _]; [contradiction | reflexivity].
Qed.

Lemma div_by_zero (x : R) : (Fin x / Fin 0)%num = NaN.
Proof.
  unfold Num.div. destruct (Req_dec_T 0 0) as [_ | N]; [reflexivity | now elim N].
Qed.

Lemma sqrt_fin (x : R) : 0 <= x -> nsqrt (Fin x) = Fin (sqrt x).
Proof.
  intros Hx. unfold nsqrt. destruct (Rlt_dec x 0) as [L | _]; [lra | reflexivity].
Qed.

Lemma is_zero_true (x : R) : x = 0 -> is_zero (Fin x) = true.
Proof.
  intros ->. unfold is_zero. destruct (Req_dec_T 0 0) as [_ | N]; [reflexivity | now elim N].
Qed.

Lemma is_zero_false (x : R) : x <> 0 -> is_zero (Fin x) = false.
Proof.
  intros Hx. unfold is_zero. destruct (Req_dec_T x 0) as [E | _]; [contradiction | reflexivity].
Qed.

Lemma is_zero_inv (a : num) : is_zero a = true -> a = Fin 0.
Proof.
  destruct a as [x |]; cbn; [| discriminate].
  destruct (Req_dec_T x 0) as [-> | _]; [reflexivity | discriminate].
Qed.

End NumFacts.

(** The Euclidean length of a finite vector. *)
Definition len (x y z : R) : R := sqrt (x * x + y * y + z * z).

Section VectorFacts.

Variables x y z : R.

Lemma sumsq_nonneg : 0 <= x * x + y * y + z * z.
Proof. nra. Qed.

Lemma len_sqr : len x y z * len x y z = x * x + y * y + z * z.
Proof. unfold len. apply sqrt_sqrt, sumsq_nonneg. Qed.

Lemma len_nonneg : 0 <= len x y z.
Proof. unfold len. apply sqrt_pos. Qed.

Lemma len_zero : len x y z = 0 -> x = 0 /\ y = 0 /\ z = 0.
Proof.
  intros H. pose proof len_sqr as S. rewrite H in S.
  repeat split; nra.
Qed.

Lemma len_nonzero : x <> 0 \/ y <> 0 \/ z <> 0 -> len x y z <> 0.
Proof.
  intros H E. apply len_zero in E. destruct E as (-> & -> & ->).
  destruct H as [H | [H | H]]; now apply H.
Qed.

Lemma norm_fin3 : norm (fin3 x y z) = Fin (len x y z).
Proof. unfold norm, dot, fin3; cbn. apply sqrt_fin, sumsq_nonneg. Qed.

Lemma norm_nonzero : x <> 0 \/ y <> 0 \/ z <> 0 -> norm (fin3 x y z) <> Fin 0.
Proof.
  intros H E. rewrite norm_fin3 in E. injection E as E. now apply len_nonzero in E.
Qed.

Lemma norm_nonzero_len : norm (fin3 x y z) <> Fin 0 -> len x y z <> 0.
Proof. intros H E. apply H. rewrite norm_fin3. now f_equal. Qed.

(** Dividing a non-zero vector by its norm. *)
Lemma unit_fin3 :
  len x y z <> 0 ->
  vdiv (fin3 x y z) (norm (fin3 x y z)) =
  fin3 (x / len x y z) (y / len x y z) (z / len x y z).
Proof.
  intros H. rewrite norm_fin3. unfold vdiv, fin3; cbn [vx vy vz].
  now rewrite !div_fin.
Qed.

(** ... which is then a unit vector. *)
Lemma unit_fin3_length :
  len x y z <> 0 ->
  dot (vdiv (fin3 x y z) (norm (fin3 x y z)))
      (vdiv (fin3 x y z) (norm (fin3 x y z))) = Fin 1.
Proof.
  intros H. rewrite (unit_fin3 H). unfold dot, fin3; cbn. f_equal.
  pose proof len_sqr as S.
  replace (x / len x y z * (x / len x y z) + y / len x y z * (y / len x y z)
           + z / len x y z * (z / len x y z))
    with ((x * x + y * y + z * z) / (len x y z * len x y z)) by (now field).
  rewrite S. field. rewrite <- S. now apply Rmult_integral_contrapositive_currified.
Qed.

End VectorFacts.

(** The zero vector has norm zero, and numpy's [0. / 0.] is [nan]. *)
Lemma unit_zero : vdiv (fin3 0 0 0) (norm (fin3 0 0 0)) = nan3.
Proof.
  rewrite norm_fin3. unfold len.
  replace (0 * 0 + 0 * 0 + 0 * 0) with 0 by ring. rewrite sqrt_0.
  unfold vdiv, fin3, nan3; cbn [vx vy vz]. now rewrite div_by_zero.
Qed.

Lemma len_axis (c : R) : sqrt (c * c) = Rabs c.
Proof. rewrite <- (sqrt_Rsqr_abs c). reflexivity. Qed.

(** ** Running [_set_plane] *)

(** A matrix of finite entries. *)
Definition fin_mat (m : list (list R)) : mat := map (map Fin) m.

(** The texture coordinate [(u, v)] as a homogeneous point. *)
Definition tex (u v : R) : vec := [Fin u; Fin v; Fin 0; Fin 1].

(** The matrix [_set_plane] leaves in [to_worldview], as a function of the
    resolved basis (see [set_plane_run]). *)
Definition worldview (cls : ds_class) (east north unit_normal c : vec3)
    (w h : R) : mat :=
  let m := combined east north unit_normal c w h in
  astype_f4 (if ds_class_eqb cls YTCuttingPlane then recenter m c else m).

(** Componentwise distance at most [tol]; never true of a [NaN]. *)
Definition within (tol : R) (a b : num) : Prop :=
  match a, b with
  | Fin x, Fin y => Rabs (x - y) <= tol
  | _, _ => False
  end.

Definition near (tol : R) (a b : vec3) : Prop :=
  within tol (vx a) (vx b) /\ within tol (vy a) (vy b) /\ within tol (vz a) (vz b).

Lemma near_refl (tol x y z : R) : 0 <= tol -> near tol (fin3 x y z) (fin3 x y z).
Proof.
  intros H. unfold near, within, fin3; cbn.
  rewrite !Rminus_diag, Rabs_R0. auto.
Qed.

Lemma resolve_basis_explicit (p : plane) (n e no : vec3) :
  normal p = Some n -> east_vec p = Some e -> north_vec p = Some no ->
  resolve_basis p = (inr (e, no, vdiv n (norm n)), p).
Proof.
  intros Hn He Hno. unfold resolve_basis, bind, read, gets.
  now rewrite Hn, He, Hno.
Qed.

Lemma set_plane_raises (p : plane) (e : exn) :
  resolve_basis p = (inl e, p) -> _set_plane p = (inl e, p).
Proof. intros H. unfold _set_plane, bind. now rewrite H. Qed.

Lemma set_plane_run (p : plane) (e no u c : vec3) :
  resolve_basis p = (inr (e, no, u), p) ->
  center p = Some c ->
  _set_plane p =
  (inr tt,
   set_to_worldview
     (worldview (ds_type (data_source p)) e no u c (width p) (height p)) p).
Proof.
  intros Hb Hc. unfold _set_plane, bind at 1. rewrite Hb.
  unfold worldview, bind, gets, read, assign; cbn. rewrite Hc; cbn.
  destruct (ds_class_eqb (ds_type (data_source p)) YTCuttingPlane); cbn;
    rewrite ?Hc; reflexivity.
Qed.

Section ClosedForms.

Variables e1 e2 e3 o1 o2 o3 u1 u2 u3 c1 c2 c3 w h : R.

Lemma combined_fin :
  combined (fin3 e1 e2 e3) (fin3 o1 o2 o3) (fin3 u1 u2 u3) (fin3 c1 c2 c3) w h =
  fin_mat [[w * e1; h * o1; u1; c1];
           [w * e2; h * o2; u2; c2];
           [w * e3; h * o3; u3; c3];
           [0; 0; 0; 1]].
Proof. cbn. repeat (f_equal; try ring). Qed.

Lemma recenter_fin (a11 a12 a13 a14 a21 a22 a23 a24 a31 a32 a33 a34 : R) :
  recenter (fin_mat [[a11; a12; a13; a14];
                     [a21; a22; a23; a24];
                     [a31; a32; a33; a34];
                     [0; 0; 0; 1]]) (fin3 c1 c2 c3) =
  fin_mat [[a11; a12; a13; c1 - a11 / 2 - a12 / 2];
           [a21; a22; a23; c2 - a21 / 2 - a22 / 2];
           [a31; a32; a33; c3 - a31 / 2 - a32 / 2];
           [0; 0; 0; 1]].
Proof. cbn. repeat (f_equal; try field). Qed.

Lemma matvec_fin (a11 a12 a13 a14 a21 a22 a23 a24 a31 a32 a33 a34 s t : R) :
  matvec (fin_mat [[a11; a12; a13; a14];
                   [a21; a22; a23; a24];
                   [a31; a32; a33; a34];
                   [0; 0; 0; 1]]) (tex s t) =
  [Fin (a14 + s * a11 + t * a12);
   Fin (a24 + s * a21 + t * a22);
   Fin (a34 + s * a31 + t * a32);
   Fin 1].
Proof. cbn. repeat (f_equal; try ring). Qed.

End ClosedForms.

Lemma tex_center_eq : tex_center = tex (5 / 10) (5 / 10).
Proof. reflexivity. Qed.

(** ** The cutting-plane correction *)

(** A data container of the given class; only the attributes a scenario
    reads matter. *)
Definition container (cls : ds_class) (ax : Z) (co : R) : data_container :=
  {| ds_type := cls; axis := ax; coord := co;
     normal_vector := zeros3; north_vector := zeros3; center_value := zeros3;
     to_frb := fun _ _ _ => [] |}.

(** A plane whose geometry traits are assigned. *)
Definition plane_of (ds : data_container) (n c : vec3) (w h : R)
    (e no : option vec3) : plane :=
  {| data_source := ds; data := None; normal := Some n; center := Some c;
     width := w; height := h; east_vec := e; north_vec := no;
     to_worldview := None; size := (-1)%Z |}.

(** C1, amended.  For a cutting plane with explicit in-plane vectors and
    a non-zero normal [_set_plane] returns.  The matrix [m] it has built
    when it reaches the cast of line 86 is the extra translation by
    center - true_center applied to m0 = translate . (to_world . scale),
    and in exact arithmetic [m] maps the centre of the texture square,
    (0.5, 0.5, 0, 1), to the supplied center, whatever the point
    center + width/2 * east + height/2 * north that m0 maps it to.  What
    is stored is the cast of [m] to single precision; no absolute
    tolerance is stated for it.  No orthonormality of the basis is
    needed. *)
Theorem cutting_plane_centroid_is_center
    (p : plane) (n1 n2 n3 e1 e2 e3 o1 o2 o3 c1 c2 c3 : R) :
  ds_type (data_source p) = YTCuttingPlane ->
  normal p = Some (fin3 n1 n2 n3) ->
  norm (fin3 n1 n2 n3) <> Fin 0 ->
  east_vec p = Some (fin3 e1 e2 e3) ->
  north_vec p = Some (fin3 o1 o2 o3) ->
  center p = Some (fin3 c1 c2 c3) ->
  let u := vdiv (fin3 n1 n2 n3) (norm (fin3 n1 n2 n3)) in
  let m0 := combined (fin3 e1 e2 e3) (fin3 o1 o2 o3) u (fin3 c1 c2 c3)
                     (width p) (height p) in
  exists m : mat,
    _set_plane p = (inr tt, set_to_worldview (astype_f4 m) p) /\
    m = matmul (translate_matrix
                  (vsub (fin3 c1 c2 c3) (head3 (matvec m0 tex_center)))) m0 /\
    matvec m0 tex_center =
      [Fin (c1 + width p / 2 * e1 + height p / 2 * o1);
       Fin (c2 + width p / 2 * e2 + height p / 2 * o2);
       Fin (c3 + width p / 2 * e3 + height p / 2 * o3);
       Fin 1] /\
    matvec m tex_center = [Fin c1; Fin c2; Fin c3; Fin 1].
Proof.
  intros Hcls Hn Hnz He Hno Hc u m0.
  exists (recenter m0 (fin3 c1 c2 c3)).
  assert (Hlen : len n1 n2 n3 <> 0) by now apply norm_nonzero_len.
  split.
  { rewrite (set_plane_run p _ _ _ _ (resolve_basis_explicit p _ _ _ Hn He Hno) Hc).
    now rewrite Hcls. }
  split; [reflexivity |].
  split.
  - subst m0 u. rewrite (unit_fin3 _ _ _ Hlen), combined_fin, tex_center_eq, matvec_fin.
    repeat (f_equal; try field).
  - subst m0 u.
    rewrite (unit_fin3 _ _ _ Hlen), combined_fin, recenter_fin, tex_center_eq, matvec_fin.
    repeat (f_equal; try field).
Qed.

(** The scenario of a cutting plane normal to x with north along z, east
    = normal x north = (0, -1, 0), center (3, 3, 3) and a 2 x 2 extent:
    without the correction the centroid would land on (3, 2, 4). *)
Definition cutting_scenario : plane :=
  plane_of (container YTCuttingPlane 0 0) (fin3 1 0 0) (fin3 3 3 3) 2 2
           (Some (fin3 0 (-1) 0)) (Some (fin3 0 0 1)).

Lemma cutting_plane_centroid_is_center_witness :
  norm (fin3 1 0 0) <> Fin 0 /\
  exists m : mat,
    _set_plane cutting_scenario =
      (inr tt, set_to_worldview (astype_f4 m) cutting_scenario) /\
    matvec (combined (fin3 0 (-1) 0) (fin3 0 0 1)
                     (vdiv (fin3 1 0 0) (norm (fin3 1 0 0))) (fin3 3 3 3) 2 2)
           tex_center =
      [Fin (3 + 2 / 2 * 0 + 2 / 2 * 0); Fin (3 + 2 / 2 * -1 + 2 / 2 * 0);
       Fin (3 + 2 / 2 * 0 + 2 / 2 * 1); Fin 1] /\
    matvec m tex_center = [Fin 3; Fin 3; Fin 3; Fin 1].
Proof.
  assert (Hnz : norm (fin3 1 0 0) <> Fin 0) by (apply norm_nonzero; left; lra).
  split; [exact Hnz |].
  destruct (@cutting_plane_centroid_is_center cutting_scenario
              1 0 0 0 (-1) 0 0 0 1 3 3 3
              eq_refl eq_refl Hnz eq_refl eq_refl eq_refl)
    as (m & Hrun & _ & Hm0 & Hm).
  exists m. split; [exact Hrun |]. split; [exact Hm0 | exact Hm].
Defined.

(** ** Resolving the in-plane basis *)

(** Neither explicit vector, or only one of them: line 40. *)
Definition basis_missing (p : plane) : Prop :=
  east_vec p = None \/ north_vec p = None.

Lemma resolve_basis_missing (p : plane) (n : vec3) :
  normal p = Some n -> basis_missing p ->
  resolve_basis p =
  match axis_basis (vdiv n (norm n)) with
  | Some (east, north) => (inr (east, north, vdiv n (norm n)), p)
  | None => (inl ValueError_not_normal_to_axis, p)
  end.
Proof.
  intros Hn Hm. unfold resolve_basis, bind, read, gets. rewrite Hn.
  destruct Hm as [Hm | Hm]; rewrite Hm;
    destruct (east_vec p), (north_vec p), (axis_basis (vdiv n (norm n))) as [[e no] |];
    try discriminate; reflexivity.
Qed.

(** The number of components that compare equal to zero. *)
Definition zero_count (v : vec3) : nat :=
  ((if is_zero (vx v) then 1 else 0) + (if is_zero (vy v) then 1 else 0)
   + (if is_zero (vz v) then 1 else 0))%nat.

Lemma axis_basis_none (u : vec3) : (zero_count u < 2)%nat -> axis_basis u = None.
Proof.
  unfold zero_count, axis_basis.
  destruct (is_zero (vx u)), (is_zero (vy u)), (is_zero (vz u)); cbn;
    intros H; try reflexivity; exfalso; repeat apply PeanoNat.lt_S_n in H;
    now apply PeanoNat.Nat.nlt_0_r in H.
Qed.

Lemma is_zero_quotient (x s : R) :
  s <> 0 -> is_zero (Fin x / Fin s)%num = is_zero (Fin x).
Proof.
  intros Hs. rewrite (div_fin _ _ Hs). unfold is_zero.
  destruct (Req_dec_T (x / s) 0) as [E | N], (Req_dec_T x 0) as [E' | N'];
    try reflexivity; exfalso.
  - apply N'. apply (Rmult_eq_compat_r s) in E. unfold Rdiv in E.
    rewrite Rmult_assoc, Rinv_l, Rmult_1_r, Rmult_0_l in E; assumption.
  - apply N. rewrite E'. unfold Rdiv. apply Rmult_0_l.
Qed.

(** Normalising a non-zero vector keeps its zero components. *)
Lemma zero_count_unit (x y z : R) :
  len x y z <> 0 ->
  zero_count (vdiv (fin3 x y z) (norm (fin3 x y z))) = zero_count (fin3 x y z).
Proof.
  intros H. rewrite norm_fin3. unfold zero_count, vdiv, fin3; cbn [vx vy vz].
  now rewrite !is_zero_quotient.
Qed.

(** The coordinate axes, and the vector [c] times the unit vector of one. *)
Inductive coord_axis : Type := AxisX | AxisY | AxisZ.

Definition along (a : coord_axis) (c : R) : vec3 :=
  match a with
  | AxisX => fin3 c 0 0
  | AxisY => fin3 0 c 0
  | AxisZ => fin3 0 0 c
  end.

(** The (east, north) pair the documentation gives for a plane normal to
    an axis: normal along z, (1,0,0) and (0,1,0); along x, (0,1,0) and
    (0,0,1); along y, (1,0,0) and (0,0,1). *)
Definition documented_basis (a : coord_axis) : vec3 * vec3 :=
  match a with
  | AxisZ => (fin3 1 0 0, fin3 0 1 0)
  | AxisX => (fin3 0 1 0, fin3 0 0 1)
  | AxisY => (fin3 1 0 0, fin3 0 0 1)
  end.

Definition orthonormal (a b c : vec3) : Prop :=
  dot a a = Fin 1 /\ dot b b = Fin 1 /\ dot c c = Fin 1 /\
  dot a b = Fin 0 /\ dot a c = Fin 0 /\ dot b c = Fin 0.

Lemma unit_along (a : coord_axis) (c : R) :
  c <> 0 ->
  vdiv (along a c) (norm (along a c)) = along a (c / Rabs c).
Proof.
  intros Hc.
  assert (Habs : Rabs c <> 0) by now apply Rabs_no_R0.
  assert (Hz : 0 / Rabs c = 0) by (unfold Rdiv; apply Rmult_0_l).
  destruct a; unfold along.
  - assert (L : len c 0 0 = Rabs c).
    { unfold len. replace (c * c + 0 * 0 + 0 * 0) with (c * c) by ring. apply len_axis. }
    rewrite unit_fin3; rewrite L; [now rewrite Hz | assumption].
  - assert (L : len 0 c 0 = Rabs c).
    { unfold len. replace (0 * 0 + c * c + 0 * 0) with (c * c) by ring. apply len_axis. }
    rewrite unit_fin3; rewrite L; [now rewrite Hz | assumption].
  - assert (L : len 0 0 c = Rabs c).
    { unfold len. replace (0 * 0 + 0 * 0 + c * c) with (c * c) by ring. apply len_axis. }
    rewrite unit_fin3; rewrite L; [now rewrite Hz | assumption].
Qed.

Lemma axis_basis_along (a : coord_axis) (s : R) :
  s <> 0 -> axis_basis (along a s) = Some (documented_basis a).
Proof.
  intros Hs. destruct a; unfold axis_basis, along, fin3; cbn [vx vy vz];
    rewrite ?(is_zero_true 0 eq_refl), ?(is_zero_false s Hs); reflexivity.
Qed.

Lemma sign_nonzero (c : R) : c <> 0 -> c / Rabs c <> 0.
Proof.
  intros Hc E. assert (Habs : Rabs c <> 0) by now apply Rabs_no_R0.
  apply Hc. apply (Rmult_eq_compat_r (Rabs c)) in E. unfold Rdiv in E.
  rewrite Rmult_assoc, Rinv_l, Rmult_1_r, Rmult_0_l in E; assumption.
Qed.

Lemma sign_square (c : R) : c <> 0 -> c / Rabs c * (c / Rabs c) = 1.
Proof.
  intros Hc. assert (Habs : Rabs c <> 0) by now apply Rabs_no_R0.
  assert (S : Rabs c * Rabs c = c * c).
  { rewrite <- Rabs_mult. apply Rabs_pos_eq. nra. }
  replace (c / Rabs c * (c / Rabs c)) with (c * c / (Rabs c * Rabs c)) by (now field).
  rewrite S. field. assumption.
Qed.

Lemma resolve_basis_along (p : plane) (a : coord_axis) (c : R) :
  normal p = Some (along a c) -> c <> 0 -> basis_missing p ->
  resolve_basis p =
  (inr (fst (documented_basis a), snd (documented_basis a), along a (c / Rabs c)), p).
Proof.
  intros Hn Hc Hm. rewrite (resolve_basis_missing p _ Hn Hm).
  rewrite (unit_along a c Hc), (axis_basis_along a _ (sign_nonzero c Hc)).
  now destruct (documented_basis a).
Qed.

(** C5.  With no explicit basis and a normal along a coordinate axis (any
    non-zero multiple [c] of its unit vector), the basis resolution
    returns the documented pair for that axis together with the unit
    normal, [c / |c|] along the axis, and the three vectors are mutually
    orthogonal unit vectors. *)
Theorem axis_aligned_basis_is_documented (p : plane) (a : coord_axis) (c : R) :
  normal p = Some (along a c) -> c <> 0 -> basis_missing p ->
  exists east north unit_normal : vec3,
    resolve_basis p = (inr (east, north, unit_normal), p) /\
    (east, north) = documented_basis a /\
    unit_normal = vdiv (along a c) (norm (along a c)) /\
    unit_normal = along a (c / Rabs c) /\
    orthonormal east north unit_normal.
Proof.
  intros Hn Hc Hm.
  exists (fst (documented_basis a)), (snd (documented_basis a)), (along a (c / Rabs c)).
  split; [now apply resolve_basis_along |].
  split; [now destruct (documented_basis a) |].
  split; [symmetry; now apply unit_along |].
  split; [reflexivity |].
  pose proof (sign_square c Hc) as S.
  destruct a; unfold orthonormal, dot, along, documented_basis, fin3; cbn;
    repeat split; f_equal; try rewrite S; ring.
Qed.

Lemma axis_aligned_basis_is_documented_witness :
  (-2 <> 0 /\
   basis_missing (plane_of (container YTSlice 0 0) (along AxisX (-2)) zeros3 1 1
                           None None)) /\
  exists east north unit_normal : vec3,
    resolve_basis (plane_of (container YTSlice 0 0) (along AxisX (-2)) zeros3 1 1
                            None None) =
    (inr (east, north, unit_normal),
     plane_of (container YTSlice 0 0) (along AxisX (-2)) zeros3 1 1 None None) /\
    (east, north) = (fin3 0 1 0, fin3 0 0 1) /\
    unit_normal = fin3 (-2 / Rabs (-2)) 0 0.
Proof.
  assert (H2 : -2 <> 0) by lra.
  assert (Hm : basis_missing (plane_of (container YTSlice 0 0) (along AxisX (-2))
                                       zeros3 1 1 None None)) by (left; reflexivity).
  split; [split; assumption |].
  destruct (@axis_aligned_basis_is_documented
              (plane_of (container YTSlice 0 0) (along AxisX (-2)) zeros3 1 1 None None)
              AxisX (-2) eq_refl H2 Hm)
    as (east & north & u & Hrun & Hb & _ & Hu & _).
  exists east, north, u. split; [exact Hrun |]. split; [exact Hb | exact Hu].
Defined.

(** C4.  With no explicit basis (either vector missing), a unit normal
    with fewer than two components equal to zero makes [_set_plane] raise
    the [ValueError] of line 51; the object is left as it was, so no
    transform is stored. *)
Theorem non_axis_aligned_normal_raises (p : plane) (n : vec3) :
  normal p = Some n ->
  basis_missing p ->
  (zero_count (vdiv n (norm n)) < 2)%nat ->
  resolve_basis p = (inl ValueError_not_normal_to_axis, p) /\
  _set_plane p = (inl ValueError_not_normal_to_axis, p).
Proof.
  intros Hn Hm Hz.
  assert (Hb : resolve_basis p = (inl ValueError_not_normal_to_axis, p)).
  { rewrite (resolve_basis_missing p n Hn Hm). now rewrite (axis_basis_none _ Hz). }
  split; [exact Hb | now apply set_plane_raises].
Qed.

(** A plane tilted between x and y, normal (1, 1, 0), no explicit basis. *)
Definition tilted_scenario : plane :=
  plane_of (container YTOther 0 0) (fin3 1 1 0) zeros3 1 1 None None.

Lemma non_axis_aligned_normal_raises_witness :
  (basis_missing tilted_scenario /\
   (zero_count (vdiv (fin3 1 1 0) (norm (fin3 1 1 0))) < 2)%nat) /\
  _set_plane tilted_scenario = (inl ValueError_not_normal_to_axis, tilted_scenario) /\
  to_worldview tilted_scenario = None.
Proof.
  assert (Hm : basis_missing tilted_scenario) by (left; reflexivity).
  assert (Hz : (zero_count (vdiv (fin3 1 1 0) (norm (fin3 1 1 0))) < 2)%nat).
  { rewrite zero_count_unit by (apply len_nonzero; left; lra).
    unfold zero_count, fin3; cbn [vx vy vz].
    rewrite (is_zero_false 1) by lra. rewrite (is_zero_true 0 eq_refl).
    cbn. apply PeanoNat.Nat.lt_succ_diag_r. }
  split; [split; assumption |].
  split; [| reflexivity].
  exact (proj2 (@non_axis_aligned_normal_raises tilted_scenario (fin3 1 1 0)
                  eq_refl Hm Hz)).
Defined.

(** ** A normal of norm zero *)

(** A plane with the zero vector as normal and explicit in-plane vectors. *)
Definition degenerate_scenario : plane :=
  plane_of (container YTOther 0 0) zeros3 zeros3 1 1
           (Some (fin3 1 0 0)) (Some (fin3 0 1 0)).

(** The matrix every entry of which is [nan]. *)
Definition nan_mat : mat :=
  [[NaN; NaN; NaN; NaN]; [NaN; NaN; NaN; NaN];
   [NaN; NaN; NaN; NaN]; [NaN; NaN; NaN; NaN]].

Lemma degenerate_scenario_run :
  _set_plane degenerate_scenario =
  (inr tt, set_to_worldview nan_mat degenerate_scenario).
Proof.
  rewrite (set_plane_run degenerate_scenario _ _ _ _
             (resolve_basis_explicit degenerate_scenario _ _ _
                eq_refl eq_refl eq_refl) eq_refl).
  unfold zeros3. rewrite unit_zero. reflexivity.
Qed.

(** C3, as stated, fails: the normal (0, 0, 0) has norm zero, yet with
    explicit in-plane vectors the basis resolution and [_set_plane] both
    return instead of raising. *)
Lemma degenerate_normal_counterexample :
  norm zeros3 = Fin 0 /\
  resolve_basis degenerate_scenario =
    (inr (fin3 1 0 0, fin3 0 1 0, nan3), degenerate_scenario) /\
  fst (_set_plane degenerate_scenario) = inr tt /\
  ~ (exists e : exn, fst (_set_plane degenerate_scenario) = inl e).
Proof.
  assert (Hnorm : norm zeros3 = Fin 0).
  { unfold zeros3. rewrite norm_fin3. unfold len.
    replace (0 * 0 + 0 * 0 + 0 * 0) with 0 by ring. now rewrite sqrt_0. }
  split; [exact Hnorm |].
  split.
  { rewrite (resolve_basis_explicit degenerate_scenario _ _ _ eq_refl eq_refl eq_refl).
    unfold zeros3. now rewrite unit_zero. }
  rewrite degenerate_scenario_run. split; [reflexivity |].
  intros [e He]. discriminate He.
Qed.

(** C3, amended.  The unit normal is the plain quotient of the normal by
    its norm, and nothing checks for a degenerate normal.  With both
    in-plane vectors set the resolution returns them with that quotient
    for every normal, and [_set_plane] returns as soon as the center is
    assigned.  For the zero vector (0, 0, 0) the quotient is [nan] in
    every component; with an in-plane vector missing the resolution then
    raises the [ValueError] of line 51, since [nan] compares unequal to
    zero, and so does [_set_plane]. *)
Theorem unit_normal_without_degeneracy_check (p : plane) (n : vec3) :
  normal p = Some n ->
  (forall east north : vec3,
     east_vec p = Some east -> north_vec p = Some north ->
     resolve_basis p = (inr (east, north, vdiv n (norm n)), p) /\
     (forall c : vec3, center p = Some c -> fst (_set_plane p) = inr tt)) /\
  (n = fin3 0 0 0 ->
     vdiv n (norm n) = nan3 /\
     (basis_missing p ->
        resolve_basis p = (inl ValueError_not_normal_to_axis, p) /\
        _set_plane p = (inl ValueError_not_normal_to_axis, p))).
Proof.
  intros Hn. split.
  - intros east north He Hno.
    pose proof (resolve_basis_explicit p n east north Hn He Hno) as Hb.
    split; [exact Hb |].
    intros c Hc. now rewrite (set_plane_run p _ _ _ _ Hb Hc).
  - intros ->. split; [apply unit_zero |].
    intros Hm.
    assert (Hb : resolve_basis p = (inl ValueError_not_normal_to_axis, p)).
    { rewrite (resolve_basis_missing p _ Hn Hm). now rewrite unit_zero. }
    split; [exact Hb | now apply set_plane_raises].
Qed.

Lemma unit_normal_without_degeneracy_check_witness :
  normal degenerate_scenario = Some (fin3 0 0 0) /\
  resolve_basis degenerate_scenario =
    (inr (fin3 1 0 0, fin3 0 1 0, vdiv (fin3 0 0 0) (norm (fin3 0 0 0))),
     degenerate_scenario) /\
  fst (_set_plane degenerate_scenario) = inr tt /\
  vdiv (fin3 0 0 0) (norm (fin3 0 0 0)) = nan3.
Proof.
  split; [reflexivity |].
  destruct (@unit_normal_without_degeneracy_check degenerate_scenario (fin3 0 0 0)
              eq_refl) as (Hexp & Hzero).
  destruct (Hexp (fin3 1 0 0) (fin3 0 1 0) eq_refl eq_refl) as (Hb & Hrun).
  split; [exact Hb |]. split; [exact (Hrun zeros3 eq_refl) |].
  exact (proj1 (Hzero eq_refl)).
Defined.

(** ** Slices and projections: no correction *)

(** The scenario of an axis slice normal to z: normal (0, 0, 1),
    center (0, 0, 5), width = height = 2, no explicit basis. *)
Definition slice_scenario : plane :=
  plane_of (container YTSlice 2 5) (fin3 0 0 1) (fin3 0 0 5) 2 2 None None.

Lemma slice_scenario_basis :
  resolve_basis slice_scenario =
  (inr (fin3 1 0 0, fin3 0 1 0, fin3 0 0 1), slice_scenario).
Proof.
  assert (H1 : 1 <> 0) by lra.
  rewrite (resolve_basis_along slice_scenario AxisZ 1 eq_refl H1 (or_introl eq_refl)).
  cbn [documented_basis fst snd along]. rewrite Rabs_R1.
  replace (1 / 1) with 1 by field. reflexivity.
Qed.

Lemma slice_scenario_run :
  _set_plane slice_scenario =
  (inr tt,
   set_to_worldview
     (combined (fin3 1 0 0) (fin3 0 1 0) (fin3 0 0 1) (fin3 0 0 5) 2 2)
     slice_scenario).
Proof.
  now rewrite (set_plane_run slice_scenario _ _ _ _ slice_scenario_basis eq_refl).
Qed.




(** The corners of the scenario, with the arithmetic carried out. *)
Lemma slice_scenario_corners :
  let m := combined (fin3 1 0 0) (fin3 0 1 0) (fin3 0 0 1) (fin3 0 0 5) 2 2 in
  matvec m (tex 0 0) = [Fin 0; Fin 0; Fin 5; Fin 1] /\
  matvec m (tex 1 0) = [Fin 2; Fin 0; Fin 5; Fin 1] /\
  matvec m (tex 0 1) = [Fin 0; Fin 2; Fin 5; Fin 1] /\
  matvec m (tex 1 1) = [Fin 2; Fin 2; Fin 5; Fin 1] /\
  matvec m tex_center = [Fin 1; Fin 1; Fin 5; Fin 1].
Proof.
  cbv zeta. rewrite tex_center_eq, combined_fin, !matvec_fin.
  repeat split; repeat (f_equal; try field).
Qed.

(** ** The composition translate . to_world . scale *)

Section Factors.

Variables e1 e2 e3 o1 o2 o3 u1 u2 u3 c1 c2 c3 w h : R.

Lemma scale_matrix_fin :
  scale_matrix w h =
  fin_mat [[w; 0; 0; 0]; [0; h; 0; 0]; [0; 0; 1; 0]; [0; 0; 0; 1]].
Proof. reflexivity. Qed.

Lemma to_world_matrix_fin :
  to_world_matrix (fin3 e1 e2 e3) (fin3 o1 o2 o3) (fin3 u1 u2 u3) =
  fin_mat [[e1; o1; u1; 0]; [e2; o2; u2; 0]; [e3; o3; u3; 0]; [0; 0; 0; 1]].
Proof. reflexivity. Qed.

Lemma translate_matrix_fin :
  translate_matrix (fin3 c1 c2 c3) =
  fin_mat [[1; 0; 0; c1]; [0; 1; 0; c2]; [0; 0; 1; c3]; [0; 0; 0; 1]].
Proof. reflexivity. Qed.

End Factors.

(** C6.  With a resolved basis (east, north, unit normal), [_set_plane]
    builds scale = diag(width, height, 1, 1), to_world with columns east,
    north, unit normal, (0,0,0,1), and translate = the identity with
    center in its last column, and composes
    m0 = translate . (to_world . scale); m0 maps (s, t, 0, 1) to
    center + s * width * east + t * height * north.  The matrix it stores
    is m0, or for a cutting plane the correction applied to m0. *)
Theorem transform_is_translate_orient_scale
    (p : plane) (e1 e2 e3 o1 o2 o3 u1 u2 u3 c1 c2 c3 : R) :
  resolve_basis p = (inr (fin3 e1 e2 e3, fin3 o1 o2 o3, fin3 u1 u2 u3), p) ->
  center p = Some (fin3 c1 c2 c3) ->
  let scale :=
    fin_mat [[width p; 0; 0; 0]; [0; height p; 0; 0]; [0; 0; 1; 0]; [0; 0; 0; 1]] in
  let to_world :=
    fin_mat [[e1; o1; u1; 0]; [e2; o2; u2; 0]; [e3; o3; u3; 0]; [0; 0; 0; 1]] in
  let translate :=
    fin_mat [[1; 0; 0; c1]; [0; 1; 0; c2]; [0; 0; 1; c3]; [0; 0; 0; 1]] in
  let m0 := matmul translate (matmul to_world scale) in
  scale_matrix (width p) (height p) = scale /\
  to_world_matrix (fin3 e1 e2 e3) (fin3 o1 o2 o3) (fin3 u1 u2 u3) = to_world /\
  translate_matrix (fin3 c1 c2 c3) = translate /\
  _set_plane p =
    (inr tt,
     set_to_worldview
       (if ds_class_eqb (ds_type (data_source p)) YTCuttingPlane
        then recenter m0 (fin3 c1 c2 c3) else m0) p) /\
  forall s t : R,
    matvec m0 (tex s t) =
    [Fin (c1 + s * width p * e1 + t * height p * o1);
     Fin (c2 + s * width p * e2 + t * height p * o2);
     Fin (c3 + s * width p * e3 + t * height p * o3);
     Fin 1].
Proof.
  intros Hb Hc scale to_world translate m0.
  split; [apply scale_matrix_fin |].
  split; [apply to_world_matrix_fin |].
  split; [apply translate_matrix_fin |].
  split; [now rewrite (set_plane_run p _ _ _ _ Hb Hc) |].
  intros s t.
  change m0 with (combined (fin3 e1 e2 e3) (fin3 o1 o2 o3) (fin3 u1 u2 u3)
                           (fin3 c1 c2 c3) (width p) (height p)).
  rewrite combined_fin, matvec_fin. repeat (f_equal; try ring).
Qed.

Lemma transform_is_translate_orient_scale_witness :
  (resolve_basis slice_scenario =
     (inr (fin3 1 0 0, fin3 0 1 0, fin3 0 0 1), slice_scenario) /\
   center slice_scenario = Some (fin3 0 0 5)) /\
  _set_plane slice_scenario =
    (inr tt,
     set_to_worldview
       (matmul (fin_mat [[1; 0; 0; 0]; [0; 1; 0; 0]; [0; 0; 1; 5]; [0; 0; 0; 1]])
          (matmul (fin_mat [[1; 0; 0; 0]; [0; 1; 0; 0]; [0; 0; 1; 0]; [0; 0; 0; 1]])
                  (fin_mat [[2; 0; 0; 0]; [0; 2; 0; 0]; [0; 0; 1; 0]; [0; 0; 0; 1]])))
       slice_scenario).
Proof.
  split; [split; [exact slice_scenario_basis | reflexivity] |].
  exact (proj1 (proj2 (proj2 (proj2
           (@transform_is_translate_orient_scale slice_scenario
              1 0 0 0 1 0 0 0 1 0 0 5 slice_scenario_basis eq_refl))))).
Defined.

(** ** The bottom row *)


(** A number that is not [nan]. *)
Definition finite (x : num) : Prop := exists r : R, x = Fin r.

(** The entry that the row (0, 0, 0, 1) of a translation picks from a
    column: it is [nan] as soon as one entry of the column is. *)
Lemma bottom_entry (a b c d : num) (r : R) :
  (Fin 0 + Fin 0 * a + Fin 0 * b + Fin 0 * c + Fin 1 * d)%num = Fin r ->
  d = Fin r.
Proof.
  destruct a, b, c, d; cbn; try discriminate.
  intros H. injection H as <-. f_equal. ring.
Qed.

Lemma matvec_row3 (m : mat) (v : vec) :
  List.length m = 4%nat -> nth_num (matvec m v) 3 = vdot (nth 3 m []) v.
Proof.
  destruct m as [| r0 [| r1 [| r2 [| r3 [| r4 m]]]]]; try discriminate.
  reflexivity.
Qed.

Ltac bottom_row_entry H :=
  let r := fresh "r" in
  let E := fresh "E" in
  destruct H as [r H]; rewrite H;
  repeat (apply bottom_entry in H);
  injection H as E; rewrite <- E; reflexivity.

Lemma worldview_bottom_row (cls : ds_class) (east north u c : vec3) (w h : R) :
  Forall finite (nth 3 (worldview cls east north u c w h) []) ->
  nth 3 (worldview cls east north u c w h) [] = [Fin 0; Fin 0; Fin 0; Fin 1].
Proof.
  destruct east as [ex ey ez], north as [ox oy oz], u as [ux uy uz], c as [cx cy cz].
  unfold worldview, astype_f4, recenter, combined, translate_matrix, to_world_matrix,
    scale_matrix.
  destruct (ds_class_eqb cls YTCuttingPlane);
    (cbn -[Num.add Num.mul Num.sub]; intros HF;
     apply Forall_cons_iff in HF as [H0 HF]; apply Forall_cons_iff in HF as [H1 HF];
     apply Forall_cons_iff in HF as [H2 HF]; apply Forall_cons_iff in HF as [H3 _];
     refine (f_equal2 cons _ (f_equal2 cons _ (f_equal2 cons _ (f_equal2 cons _ eq_refl))));
     [bottom_row_entry H0 | bottom_row_entry H1 | bottom_row_entry H2
     | bottom_row_entry H3]).
Qed.

Lemma worldview_length (cls : ds_class) (east north u c : vec3) (w h : R) :
  List.length (worldview cls east north u c w h) = 4%nat.
Proof.
  unfold worldview, astype_f4. destruct (ds_class_eqb cls YTCuttingPlane); reflexivity.
Qed.



(** ** [add_data] on a data source of an unexpected class *)

(** A data source that is neither a slice, a cutting plane nor a
    projection, whose buffer is the 1 x 1 image [[1]]. *)
Definition sphere_container : data_container :=
  {| ds_type := YTOther; axis := 0; coord := 0;
     normal_vector := zeros3; north_vector := zeros3; center_value := zeros3;
     to_frb := fun _ _ _ => [[1]] |}.

(** A fresh plane on it: nothing assigned yet. *)
Definition unsupported_scenario : plane :=
  {| data_source := sphere_container; data := None; normal := None;
     center := None; width := 0; height := 0; east_vec := None;
     north_vec := None; to_worldview := None; size := (-1)%Z |}.

Lemma add_data_unexpected (p : plane) (field : string) (w : R)
    (dims : nat * nat) (t : R) :
  ds_type (data_source p) = YTOther ->
  add_data field w dims t p =
  (inl ValueError_unexpected_data_source,
   set_data (to_frb (data_source p) w dims field) p).
Proof.
  intros Hcls.
  unfold add_data, bind, gets, assign, derive_normal_center; cbn.
  rewrite Hcls. reflexivity.
Qed.

(** C8, as stated, fails: the call raises, but [data] was assigned from
    the buffer before the class of the source was looked at. *)
Lemma unsupported_source_counterexample :
  fst (add_data "density" 1 (400, 400)%nat 0 unsupported_scenario) =
    inl ValueError_unexpected_data_source /\
  data unsupported_scenario = None /\
  data (snd (add_data "density" 1 (400, 400)%nat 0 unsupported_scenario)) =
    Some [[1]] /\
  data (snd (add_data "density" 1 (400, 400)%nat 0 unsupported_scenario)) <>
    data unsupported_scenario.
Proof.
  rewrite (add_data_unexpected unsupported_scenario "density" 1 (400, 400)%nat 0 eq_refl).
  cbn. repeat split; discriminate.
Qed.

(** C8, amended.  For a data source of any other class [add_data] raises
    the [ValueError] of line 157 having assigned [data] only: the normal,
    the center, the width, the height, the in-plane vectors and the
    transform are as they were before the call. *)
Theorem unsupported_source_sets_data_only (p : plane) (field : string) (w : R)
    (dims : nat * nat) (t : R) :
  ds_type (data_source p) = YTOther ->
  let r := add_data field w dims t p in
  fst r = inl ValueError_unexpected_data_source /\
  data (snd r) = Some (to_frb (data_source p) w dims field) /\
  normal (snd r) = normal p /\
  center (snd r) = center p /\
  width (snd r) = width p /\
  height (snd r) = height p /\
  east_vec (snd r) = east_vec p /\
  north_vec (snd r) = north_vec p /\
  to_worldview (snd r) = to_worldview p /\
  size (snd r) = size p.
Proof.
  intros Hcls r. subst r. rewrite (add_data_unexpected p field w dims t Hcls).
  cbn. repeat split.
Qed.

Lemma unsupported_source_sets_data_only_witness :
  ds_type (data_source unsupported_scenario) = YTOther /\
  fst (add_data "density" 1 (400, 400)%nat 0 unsupported_scenario) =
    inl ValueError_unexpected_data_source /\
  normal (snd (add_data "density" 1 (400, 400)%nat 0 unsupported_scenario)) = None.
Proof.
  split; [reflexivity |].
  destruct (@unsupported_source_sets_data_only unsupported_scenario "density" 1
              (400, 400)%nat 0 eq_refl) as (Hr & _ & Hn & _).
  split; [exact Hr | exact Hn].
Defined.

(** ** [add_data] on the supported classes *)

(** Lines 163-166 *)
Definition assigned (n c : vec3) (w : R) (p : plane) : plane :=
  set_height w (set_width w (set_normal n (set_center c p))).

(** The coordinate axis a Python index into an array of three selects. *)
Definition axis_of (i : Z) : option coord_axis :=
  match norm_index3 i with
  | Some 0%nat => Some AxisX
  | Some 1%nat => Some AxisY
  | Some _ => Some AxisZ
  | None => None
  end.

Lemma set_item3_zeros (i : Z) (x : R) :
  set_item3 zeros3 i (Fin x) = option_map (fun a => along a x) (axis_of i).
Proof.
  unfold set_item3, axis_of. destruct (norm_index3 i) as [[| [| k]] |]; reflexivity.
Qed.

Lemma base_add_data_run (p : plane) (e no u c : vec3) :
  resolve_basis p = (inr (e, no, u), p) ->
  center p = Some c ->
  BasePlane_add_data p =
  (inr tt,
   set_size 6
     (set_to_worldview
        (worldview (ds_type (data_source p)) e no u c (width p) (height p)) p)).
Proof.
  intros Hb Hc. unfold BasePlane_add_data, bind.
  now rewrite (set_plane_run p e no u c Hb Hc).
Qed.

Lemma add_data_axis (p : plane) (field : string) (w : R) (dims : nat * nat)
    (t : R) (a : coord_axis) :
  ds_type (data_source p) = YTSlice \/ ds_type (data_source p) = YTProj ->
  axis_of (axis (data_source p)) = Some a ->
  let c := if ds_class_eqb (ds_type (data_source p)) YTSlice
           then coord (data_source p) else 1 in
  add_data field w dims t p =
  BasePlane_add_data
    (assigned (along a 1) (translated t (along a c) (along a 1)) w
       (set_data (to_frb (data_source p) w dims field) p)).
Proof.
  intros Hcls Ha c. subst c.
  unfold add_data, bind, gets, assign, derive_normal_center; cbn [data_source set_data].
  destruct Hcls as [Hcls | Hcls]; rewrite Hcls; cbn [ds_class_eqb];
    unfold bind; rewrite !set_item3_zeros, Ha; reflexivity.
Qed.

Lemma add_data_bad_axis (p : plane) (field : string) (w : R) (dims : nat * nat)
    (t : R) :
  ds_type (data_source p) = YTSlice \/ ds_type (data_source p) = YTProj ->
  axis_of (axis (data_source p)) = None ->
  add_data field w dims t p =
  (inl IndexError, set_data (to_frb (data_source p) w dims field) p).
Proof.
  intros Hcls Ha.
  unfold add_data, bind, gets, assign, derive_normal_center; cbn [data_source set_data].
  destruct Hcls as [Hcls | Hcls]; rewrite Hcls;
    unfold bind; rewrite !set_item3_zeros, Ha; reflexivity.
Qed.

Lemma add_data_cutting (p : plane) (field : string) (w : R) (dims : nat * nat)
    (t : R) :
  ds_type (data_source p) = YTCuttingPlane ->
  let ds := data_source p in
  let north := vdiv (north_vector ds) (norm (north_vector ds)) in
  let nrm := vdiv (normal_vector ds) (norm (normal_vector ds)) in
  add_data field w dims t p =
  BasePlane_add_data
    (assigned nrm (translated t (center_value ds) nrm) w
       (set_east_vec (cross nrm north)
          (set_north_vec north
             (set_north_vec (north_vector ds)
                (set_data (to_frb ds w dims field) p))))).
Proof.
  intros Hcls ds north nrm. subst ds north nrm.
  unfold add_data, bind, gets, assign, derive_normal_center; cbn [data_source set_data].
  rewrite Hcls. reflexivity.
Qed.

Lemma resolve_basis_on_axis (p : plane) (a : coord_axis) :
  normal p = Some (along a 1) ->
  exists e no u : vec3, resolve_basis p = (inr (e, no, u), p).
Proof.
  intros Hn. destruct (east_vec p) as [e |] eqn:He.
  - destruct (north_vec p) as [no |] eqn:Hno.
    + exists e, no, (vdiv (along a 1) (norm (along a 1))).
      now apply resolve_basis_explicit.
    + assert (H1 : 1 <> 0) by lra. eexists _, _, _.
      apply (resolve_basis_along p a 1 Hn H1). now right.
  - assert (H1 : 1 <> 0) by lra. eexists _, _, _.
    apply (resolve_basis_along p a 1 Hn H1). now left.
Qed.

(** C10.  On a slice, a cutting plane or a projection [add_data] never
    raises the [ValueError] of line 51.  A cutting plane always leaves
    both in-plane vectors assigned and the call returns; a slice or a
    projection with an axis index in range gets a unit vector along a
    coordinate axis as normal and the call returns; an axis index out of
    range raises [IndexError] before [_set_plane] is reached. *)
Theorem supported_sources_never_raise_axis_error (p : plane) (field : string)
    (w : R) (dims : nat * nat) (t : R) :
  ds_type (data_source p) <> YTOther ->
  let r := add_data field w dims t p in
  fst r <> inl ValueError_not_normal_to_axis /\
  match ds_type (data_source p) with
  | YTCuttingPlane =>
      fst r = inr tt /\
      exists e no : vec3, east_vec (snd r) = Some e /\ north_vec (snd r) = Some no
  | _ =>
      (exists a : coord_axis,
         axis_of (axis (data_source p)) = Some a /\
         fst r = inr tt /\ normal (snd r) = Some (along a 1)) \/
      (axis_of (axis (data_source p)) = None /\ fst r = inl IndexError)
  end.
Proof.
  intros Hsup r.
  assert (Haxis :
    ds_type (data_source p) = YTSlice \/ ds_type (data_source p) = YTProj ->
    (exists a : coord_axis,
       axis_of (axis (data_source p)) = Some a /\
       fst r = inr tt /\ normal (snd r) = Some (along a 1)) \/
    (axis_of (axis (data_source p)) = None /\ fst r = inl IndexError)).
  { intros Hcls. subst r. destruct (axis_of (axis (data_source p))) as [a |] eqn:Ha.
    - left. exists a. split; [reflexivity |].
      rewrite (add_data_axis p field w dims t a Hcls Ha).
      match goal with |- context [BasePlane_add_data ?q] => set (p' := q) end.
      destruct (resolve_basis_on_axis p' a eq_refl) as (e & no & u & Hb).
      rewrite (base_add_data_run p' e no u _ Hb eq_refl). split; reflexivity.
    - right. split; [reflexivity |].
      now rewrite (add_data_bad_axis p field w dims t Hcls Ha). }
  destruct (ds_type (data_source p)) eqn:Hcls.
  - destruct (Haxis (or_introl eq_refl)) as [(a & Ha & Hr & Hn) | (Ha & Hr)];
      (split; [rewrite Hr; discriminate |]); [left; now exists a | now right].
  - subst r. rewrite (add_data_cutting p field w dims t Hcls).
    match goal with |- context [BasePlane_add_data ?q] => set (p' := q) end.
    rewrite (base_add_data_run p' _ _ _ _
               (resolve_basis_explicit p' _ _ _ eq_refl eq_refl eq_refl) eq_refl).
    split; [discriminate |]. split; [reflexivity |].
    eexists _, _. split; reflexivity.
  - destruct (Haxis (or_intror eq_refl)) as [(a & Ha & Hr & Hn) | (Ha & Hr)];
      (split; [rewrite Hr; discriminate |]); [left; now exists a | now right].
  - now elim Hsup.
Qed.

(** A slice at z = 5 added to a fresh plane. *)
Definition fresh_slice : plane :=
  {| data_source := container YTSlice 2 5; data := None; normal := None;
     center := None; width := 0; height := 0; east_vec := None;
     north_vec := None; to_worldview := None; size := (-1)%Z |}.

Lemma supported_sources_never_raise_axis_error_witness :
  ds_type (data_source fresh_slice) <> YTOther /\
  fst (add_data "density" 2 (400, 400)%nat 0 fresh_slice) <>
    inl ValueError_not_normal_to_axis.
Proof.
  assert (H : ds_type (data_source fresh_slice) <> YTOther) by discriminate.
  split; [exact H |].
  exact (proj1 (@supported_sources_never_raise_axis_error fresh_slice "density" 2
                  (400, 400)%nat 0 H)).
Defined.

(** ** The in-plane vectors of a cutting plane *)

Section UnitPair.

(** Two orthogonal unit vectors [a] (the normal) and [b] (north). *)
Variables a1 a2 a3 b1 b2 b3 : R.
Hypothesis a_unit : a1 * a1 + a2 * a2 + a3 * a3 = 1.
Hypothesis b_unit : b1 * b1 + b2 * b2 + b3 * b3 = 1.
Hypothesis a_b_orth : a1 * b1 + a2 * b2 + a3 * b3 = 0.

Let a := fin3 a1 a2 a3.
Let b := fin3 b1 b2 b3.

(** Lagrange's identity. *)
Lemma cross_square :
  (a2 * b3 - a3 * b2) * (a2 * b3 - a3 * b2)
  + (a3 * b1 - a1 * b3) * (a3 * b1 - a1 * b3)
  + (a1 * b2 - a2 * b1) * (a1 * b2 - a2 * b1) = 1.
Proof.
  replace ((a2 * b3 - a3 * b2) * (a2 * b3 - a3 * b2)
           + (a3 * b1 - a1 * b3) * (a3 * b1 - a1 * b3)
           + (a1 * b2 - a2 * b1) * (a1 * b2 - a2 * b1))
    with ((a1 * a1 + a2 * a2 + a3 * a3) * (b1 * b1 + b2 * b2 + b3 * b3)
          - (a1 * b1 + a2 * b2 + a3 * b3) * (a1 * b1 + a2 * b2 + a3 * b3)) by ring.
  rewrite a_unit, b_unit, a_b_orth. ring.
Qed.

Lemma cross_orthonormal : orthonormal (cross a b) b a.
Proof.
  unfold orthonormal, dot, cross, a, b, fin3; cbn.
  repeat split; f_equal;
    try exact cross_square; try exact a_unit; try exact b_unit; try ring.
  rewrite <- a_b_orth. ring.
Qed.

(** (a x b, b, a) is left-handed ... *)
Lemma det_cross_second_first : det3 (cross a b) b a = Fin (-1).
Proof.
  unfold det3, dot, cross, a, b, fin3; cbn. f_equal.
  pose proof cross_square as S. lra.
Qed.

(** ... and (a, b, a x b) is right-handed. *)
Lemma det_first_second_cross : det3 a b (cross a b) = Fin 1.
Proof.
  unfold det3, dot, cross, a, b, fin3; cbn. f_equal.
  pose proof cross_square as S. lra.
Qed.

End UnitPair.

Lemma unit_components (x y z : R) :
  len x y z <> 0 ->
  x / len x y z * (x / len x y z) + y / len x y z * (y / len x y z)
  + z / len x y z * (z / len x y z) = 1.
Proof.
  intros H. pose proof (unit_fin3_length x y z H) as U.
  rewrite (unit_fin3 x y z H) in U. unfold dot, fin3 in U; cbn in U.
  now injection U.
Qed.

Lemma unit_orthogonal (x y z x' y' z' : R) :
  len x y z <> 0 -> len x' y' z' <> 0 ->
  x * x' + y * y' + z * z' = 0 ->
  x / len x y z * (x' / len x' y' z') + y / len x y z * (y' / len x' y' z')
  + z / len x y z * (z' / len x' y' z') = 0.
Proof.
  intros H H' O.
  replace (x / len x y z * (x' / len x' y' z') + y / len x y z * (y' / len x' y' z')
           + z / len x y z * (z' / len x' y' z'))
    with ((x * x' + y * y' + z * z') / (len x y z * len x' y' z')) by (now field).
  rewrite O. unfold Rdiv. apply Rmult_0_l.
Qed.

(** What [add_data] leaves in the object for a cutting plane whose
    normal and north vectors are finite and non-zero. *)
Lemma add_data_cutting_fields (p : plane) (field : string) (w : R)
    (dims : nat * nat) (t : R) (n1 n2 n3 o1 o2 o3 : R) :
  ds_type (data_source p) = YTCuttingPlane ->
  normal_vector (data_source p) = fin3 n1 n2 n3 ->
  north_vector (data_source p) = fin3 o1 o2 o3 ->
  len n1 n2 n3 <> 0 -> len o1 o2 o3 <> 0 ->
  let r := add_data field w dims t p in
  let nrm := fin3 (n1 / len n1 n2 n3) (n2 / len n1 n2 n3) (n3 / len n1 n2 n3) in
  let north := fin3 (o1 / len o1 o2 o3) (o2 / len o1 o2 o3) (o3 / len o1 o2 o3) in
  fst r = inr tt /\
  normal (snd r) = Some nrm /\
  north_vec (snd r) = Some north /\
  east_vec (snd r) = Some (cross nrm north).
Proof.
  intros Hcls Hn Ho Ln Lo r nrm north. subst r.
  rewrite (add_data_cutting p field w dims t Hcls).
  match goal with |- context [BasePlane_add_data ?q] => set (p' := q) end.
  rewrite (base_add_data_run p' _ _ _ _
             (resolve_basis_explicit p' _ _ _ eq_refl eq_refl eq_refl) eq_refl).
  subst p'. cbn [fst snd normal north_vec east_vec set_size set_to_worldview assigned
                 set_height set_width set_normal set_center set_east_vec set_north_vec].
  rewrite Hn, Ho, (unit_fin3 _ _ _ Ln), (unit_fin3 _ _ _ Lo).
  repeat split.
Qed.

(** A cutting plane with normal (0, 0, 1), north (0, 1, 0) and center at
    the origin, added to a fresh plane. *)
Definition fresh_cutting : plane :=
  {| data_source :=
       {| ds_type := YTCuttingPlane; axis := 0; coord := 0;
          normal_vector := fin3 0 0 1; north_vector := fin3 0 1 0;
          center_value := zeros3; to_frb := fun _ _ _ => [] |};
     data := None; normal := None; center := None; width := 0; height := 0;
     east_vec := None; north_vec := None; to_worldview := None; size := (-1)%Z |}.

Lemma len_unit_z : len 0 0 1 = 1.
Proof.
  unfold len. replace (0 * 0 + 0 * 0 + 1 * 1) with 1 by ring. apply sqrt_1.
Qed.

Lemma len_unit_y : len 0 1 0 = 1.
Proof.
  unfold len. replace (0 * 0 + 1 * 1 + 0 * 0) with 1 by ring. apply sqrt_1.
Qed.

(** C7, as stated, fails: for the normal (0, 0, 1) and north (0, 1, 0),
    which are orthogonal, east = normal x north = (-1, 0, 0), and the
    triple (east, north, normal) has determinant -1: it is left-handed,
    east x north is the opposite of the normal. *)
Lemma cutting_plane_handedness_counterexample :
  dot (fin3 0 0 1) (fin3 0 1 0) = Fin 0 /\
  fst (add_data "density" 1 (400, 400)%nat 0 fresh_cutting) = inr tt /\
  normal (snd (add_data "density" 1 (400, 400)%nat 0 fresh_cutting)) =
    Some (fin3 0 0 1) /\
  north_vec (snd (add_data "density" 1 (400, 400)%nat 0 fresh_cutting)) =
    Some (fin3 0 1 0) /\
  east_vec (snd (add_data "density" 1 (400, 400)%nat 0 fresh_cutting)) =
    Some (fin3 (-1) 0 0) /\
  det3 (fin3 (-1) 0 0) (fin3 0 1 0) (fin3 0 0 1) = Fin (-1) /\
  det3 (fin3 (-1) 0 0) (fin3 0 1 0) (fin3 0 0 1) <> Fin 1 /\
  cross (fin3 (-1) 0 0) (fin3 0 1 0) <> fin3 0 0 1.
Proof.
  assert (Lz : len 0 0 1 <> 0) by (rewrite len_unit_z; lra).
  assert (Ly : len 0 1 0 <> 0) by (rewrite len_unit_y; lra).
  destruct (add_data_cutting_fields fresh_cutting "density" 1 (400, 400)%nat 0
              0 0 1 0 1 0 eq_refl eq_refl eq_refl Lz Ly) as (Hr & Hn & Ho & He).
  rewrite len_unit_z in Hn, He. rewrite len_unit_y in Ho, He.
  assert (Z1 : 0 / 1 = 0) by field. assert (O1 : 1 / 1 = 1) by field.
  rewrite Z1, O1 in Hn, Ho, He.
  split; [unfold dot, fin3; cbn; f_equal; ring |].
  split; [exact Hr |]. split; [exact Hn |]. split; [exact Ho |].
  split; [rewrite He; unfold cross, fin3; cbn; repeat f_equal; ring |].
  assert (D : det3 (fin3 (-1) 0 0) (fin3 0 1 0) (fin3 0 0 1) = Fin (-1)).
  { unfold det3, dot, cross, fin3; cbn. f_equal. ring. }
  split; [exact D |].
  split.
  - rewrite D. intros E. injection E as E. lra.
  - unfold cross, fin3; cbn. intros E. injection E as _ _ E. lra.
Qed.

(** C7, amended.  For a cutting plane [add_data] assigns the source's
    normal and north vectors divided by their norms and
    east = normal x north, and returns.  When the two source vectors are
    non-zero and orthogonal, east, north and normal are mutually
    orthogonal unit vectors; the triple (east, north, normal) is
    left-handed (determinant -1), the triple (normal, north, east) is the
    right-handed one. *)
Theorem cutting_plane_basis_is_left_handed (p : plane) (field : string) (w : R)
    (dims : nat * nat) (t : R) (n1 n2 n3 o1 o2 o3 : R) :
  ds_type (data_source p) = YTCuttingPlane ->
  normal_vector (data_source p) = fin3 n1 n2 n3 ->
  north_vector (data_source p) = fin3 o1 o2 o3 ->
  norm (fin3 n1 n2 n3) <> Fin 0 ->
  norm (fin3 o1 o2 o3) <> Fin 0 ->
  dot (fin3 n1 n2 n3) (fin3 o1 o2 o3) = Fin 0 ->
  let r := add_data field w dims t p in
  let nrm := vdiv (fin3 n1 n2 n3) (norm (fin3 n1 n2 n3)) in
  let north := vdiv (fin3 o1 o2 o3) (norm (fin3 o1 o2 o3)) in
  let east := cross nrm north in
  fst r = inr tt /\
  normal (snd r) = Some nrm /\
  north_vec (snd r) = Some north /\
  east_vec (snd r) = Some east /\
  orthonormal east north nrm /\
  det3 east north nrm = Fin (-1) /\
  det3 nrm north east = Fin 1.
Proof.
  intros Hcls Hn Ho Nn No Horth r nrm north east.
  apply norm_nonzero_len in Nn. apply norm_nonzero_len in No.
  assert (O : n1 * o1 + n2 * o2 + n3 * o3 = 0).
  { unfold dot, fin3 in Horth; cbn in Horth. now injection Horth. }
  destruct (add_data_cutting_fields p field w dims t n1 n2 n3 o1 o2 o3
              Hcls Hn Ho Nn No) as (Hr & Hnrm & Hnorth & Heast).
  subst r east nrm north. rewrite (unit_fin3 _ _ _ Nn), (unit_fin3 _ _ _ No).
  pose proof (unit_components n1 n2 n3 Nn) as Ua.
  pose proof (unit_components o1 o2 o3 No) as Ub.
  pose proof (unit_orthogonal n1 n2 n3 o1 o2 o3 Nn No O) as Uab.
  split; [exact Hr |]. split; [exact Hnrm |]. split; [exact Hnorth |].
  split; [exact Heast |].
  split; [exact (cross_orthonormal _ _ _ _ _ _ Ua Ub Uab) |].
  split; [exact (det_cross_second_first _ _ _ _ _ _ Ua Ub Uab) |].
  exact (det_first_second_cross _ _ _ _ _ _ Ua Ub Uab).
Qed.

Lemma cutting_plane_basis_is_left_handed_witness :
  (norm (fin3 0 0 1) <> Fin 0 /\ norm (fin3 0 1 0) <> Fin 0 /\
   dot (fin3 0 0 1) (fin3 0 1 0) = Fin 0) /\
  fst (add_data "density" 1 (400, 400)%nat 0 fresh_cutting) = inr tt /\
  det3 (cross (vdiv (fin3 0 0 1) (norm (fin3 0 0 1)))
              (vdiv (fin3 0 1 0) (norm (fin3 0 1 0))))
       (vdiv (fin3 0 1 0) (norm (fin3 0 1 0)))
       (vdiv (fin3 0 0 1) (norm (fin3 0 0 1))) = Fin (-1).
Proof.
  assert (Nz : norm (fin3 0 0 1) <> Fin 0) by (apply norm_nonzero; right; right; lra).
  assert (Ny : norm (fin3 0 1 0) <> Fin 0) by (apply norm_nonzero; right; left; lra).
  assert (O : dot (fin3 0 0 1) (fin3 0 1 0) = Fin 0).
  { unfold dot, fin3; cbn. f_equal. ring. }
  split; [repeat split; assumption |].
  destruct (@cutting_plane_basis_is_left_handed fresh_cutting "density" 1
              (400, 400)%nat 0 0 0 1 0 1 0 eq_refl eq_refl eq_refl Nz Ny O)
    as (Hr & _ & _ & _ & _ & Hd & _).
  split; [exact Hr | exact Hd].
Defined.


(** * Further properties of [_set_plane] *)

(** ** The stored matrix in closed form *)

Lemma worldview_cutting_fin (e1 e2 e3 o1 o2 o3 u1 u2 u3 c1 c2 c3 w h : R) :
  worldview YTCuttingPlane (fin3 e1 e2 e3) (fin3 o1 o2 o3) (fin3 u1 u2 u3)
            (fin3 c1 c2 c3) w h =
  fin_mat [[w * e1; h * o1; u1; c1 - w * e1 / 2 - h * o1 / 2];
           [w * e2; h * o2; u2; c2 - w * e2 / 2 - h * o2 / 2];
           [w * e3; h * o3; u3; c3 - w * e3 / 2 - h * o3 / 2];
           [0; 0; 0; 1]].
Proof.
  unfold worldview, astype_f4. cbn [ds_class_eqb].
  now rewrite combined_fin, recenter_fin.
Qed.

Lemma worldview_plain_fin (cls : ds_class)
    (e1 e2 e3 o1 o2 o3 u1 u2 u3 c1 c2 c3 w h : R) :
  cls <> YTCuttingPlane ->
  worldview cls (fin3 e1 e2 e3) (fin3 o1 o2 o3) (fin3 u1 u2 u3)
            (fin3 c1 c2 c3) w h =
  fin_mat [[w * e1; h * o1; u1; c1];
           [w * e2; h * o2; u2; c2];
           [w * e3; h * o3; u3; c3];
           [0; 0; 0; 1]].
Proof.
  intros Hcls. unfold worldview, astype_f4.
  destruct cls; try (now elim Hcls); cbn [ds_class_eqb]; apply combined_fin.
Qed.


Lemma cutting_scenario_basis :
  resolve_basis cutting_scenario =
  (inr (fin3 0 (-1) 0, fin3 0 0 1, fin3 1 0 0), cutting_scenario).
Proof.
  rewrite (resolve_basis_explicit cutting_scenario _ _ _ eq_refl eq_refl eq_refl).
  assert (L : len 1 0 0 = 1).
  { unfold len. replace (1 * 1 + 0 * 0 + 0 * 0) with 1 by ring. apply sqrt_1. }
  rewrite unit_fin3 by (rewrite L; lra). rewrite L.
  replace (1 / 1) with 1 by field. replace (0 / 1) with 0 by field. reflexivity.
Qed.




(** X3.  The correction of lines 81-84 is idempotent on a finite affine
    matrix: once the centre of the texture square maps to the center,
    correcting again changes nothing. *)
Theorem recenter_idempotent
    (a11 a12 a13 a14 a21 a22 a23 a24 a31 a32 a33 a34 c1 c2 c3 : R) :
  let m := fin_mat [[a11; a12; a13; a14];
                    [a21; a22; a23; a24];
                    [a31; a32; a33; a34];
                    [0; 0; 0; 1]] in
  recenter (recenter m (fin3 c1 c2 c3)) (fin3 c1 c2 c3) =
  recenter m (fin3 c1 c2 c3).
Proof.
  cbv zeta. rewrite !recenter_fin. reflexivity.
Qed.

(** ** What [_set_plane] reads and writes *)

(** The basis resolution does not write to the object. *)
Lemma resolve_basis_pure (p : plane) : snd (resolve_basis p) = p.
Proof.
  unfold resolve_basis, bind, read, gets.
  destruct (normal p) as [n |]; [| reflexivity].
  destruct (east_vec p), (north_vec p);
    try reflexivity;
    destruct (axis_basis (vdiv n (norm n))) as [[e no] |]; reflexivity.
Qed.

(** ... and does not read the transform. *)
Lemma resolve_basis_ignores_worldview (p : plane) (m : mat) :
  resolve_basis (set_to_worldview m p) =
  (fst (resolve_basis p), set_to_worldview m p).
Proof.
  destruct p as [ds d n c w h ev nv tw sz].
  unfold resolve_basis, bind, read, gets, set_to_worldview; cbn.
  destruct n as [n |]; [| reflexivity].
  destruct ev, nv;
    try reflexivity;
    destruct (axis_basis (vdiv n (norm n))) as [[e no] |]; reflexivity.
Qed.

(** The three ways a call of [_set_plane] can end. *)
Lemma set_plane_cases (p : plane) :
  (exists e : exn,
     resolve_basis p = (inl e, p) /\ _set_plane p = (inl e, p)) \/
  (exists b : vec3 * vec3 * vec3,
     resolve_basis p = (inr b, p) /\ center p = None /\
     _set_plane p = (inl TraitError, p)) \/
  (exists e no u c : vec3,
     resolve_basis p = (inr (e, no, u), p) /\ center p = Some c /\
     _set_plane p =
     (inr tt,
      set_to_worldview
        (worldview (ds_type (data_source p)) e no u c (width p) (height p)) p)).
Proof.
  pose proof (resolve_basis_pure p) as Hp.
  destruct (resolve_basis p) as [[e | [[e no] u]] q] eqn:Hb; cbn in Hp; subst q.
  - left. exists e. split; [reflexivity | now apply set_plane_raises].
  - destruct (center p) as [c |] eqn:Hc.
    + right; right. exists e, no, u, c.
      split; [reflexivity |]. split; [reflexivity |]. now apply set_plane_run.
    + right; left. exists (e, no, u).
      split; [reflexivity |]. split; [reflexivity |].
      unfold _set_plane, bind at 1. rewrite Hb.
      unfold bind, gets, read. now rewrite Hc.
Qed.

Lemma resolve_basis_errors (p : plane) (e : exn) :
  resolve_basis p = (inl e, p) ->
  (e = TraitError /\ normal p = None) \/
  (e = ValueError_not_normal_to_axis /\ basis_missing p /\
   exists n : vec3, normal p = Some n /\ axis_basis (vdiv n (norm n)) = None).
Proof.
  unfold resolve_basis, bind, read, gets, basis_missing.
  destruct (normal p) as [n |].
  - destruct (east_vec p), (north_vec p); try discriminate;
      destruct (axis_basis (vdiv n (norm n))) as [[ea no] |] eqn:Ha; try discriminate;
      intros H; injection H as <-; right;
      (split; [reflexivity |]); (split; [auto |]); now exists n.
  - intros H; injection H as <-. now left.
Qed.

(** X4.  [_set_plane] is idempotent: called again on the object it left,
    it ends the same way and leaves the same object, so the correction
    of a cutting plane is not accumulated from call to call. *)
Theorem set_plane_idempotent (p : plane) :
  _set_plane (snd (_set_plane p)) = _set_plane p.
Proof.
  destruct (set_plane_cases p)
    as [(e & _ & Hr) | [(b & _ & _ & Hr) | (e & no & u & c & Hb & Hc & Hr)]];
    rewrite Hr; cbn [snd]; try exact Hr.
  match goal with |- _set_plane (set_to_worldview ?m0 p) = _ => set (m := m0) end.
  assert (Hb' : resolve_basis (set_to_worldview m p) =
                (inr (e, no, u), set_to_worldview m p)).
  { rewrite resolve_basis_ignores_worldview. now rewrite Hb. }
  rewrite (set_plane_run (set_to_worldview m p) e no u c Hb' Hc).
  reflexivity.
Qed.

(** ** An object whose data source cannot be read

    [_set_plane] reads [self.data_source] at line 75, after line 73 has
    assigned [to_worldview].  [BasePlane] declares no such attribute and
    on [PlaneData] it is a trait without a default, so that read can
    raise.  [set_plane_on unreadable] is the method on an object for
    which the read raises [e] when [unreadable = Some e]; on an object
    whose data source is assigned, [unreadable = None], it is
    [_set_plane]. *)
Definition read_data_source (unreadable : option exn) : M data_container :=
  match unreadable with
  | None => gets data_source
  | Some e => raise e
  end.

Definition set_plane_on (unreadable : option exn) : M unit :=
  '(east_vec, north_vec, unit_normal) <- resolve_basis ;;
  w <- gets width ;;
  h <- gets height ;;
  c <- read center TraitError ;;
  assign (set_to_worldview (combined east_vec north_vec unit_normal c w h)) ;;
  ds <- read_data_source unreadable ;;
  (if ds_class_eqb (ds_type ds) YTCuttingPlane then
     m <- read to_worldview AttributeError ;;
     c <- read center TraitError ;;
     assign (set_to_worldview (recenter m c))
   else ret tt) ;;
  m <- read to_worldview AttributeError ;;
  assign (set_to_worldview (astype_f4 m)).

Lemma set_plane_on_readable : set_plane_on None = _set_plane.
Proof. reflexivity. Qed.

(** The ways a call can end when the data source cannot be read. *)
Lemma set_plane_on_unreadable_cases (x : exn) (p : plane) :
  (exists e : exn,
     resolve_basis p = (inl e, p) /\ set_plane_on (Some x) p = (inl e, p)) \/
  (exists b : vec3 * vec3 * vec3,
     resolve_basis p = (inr b, p) /\ center p = None /\
     set_plane_on (Some x) p = (inl TraitError, p)) \/
  (exists e no u c : vec3,
     resolve_basis p = (inr (e, no, u), p) /\ center p = Some c /\
     set_plane_on (Some x) p =
     (inl x, set_to_worldview (combined e no u c (width p) (height p)) p)).
Proof.
  pose proof (resolve_basis_pure p) as Hp.
  destruct (resolve_basis p) as [[e | [[e no] u]] q] eqn:Hb; cbn in Hp; subst q.
  - left. exists e. split; [reflexivity |].
    unfold set_plane_on, bind. now rewrite Hb.
  - destruct (center p) as [c |] eqn:Hc.
    + right; right. exists e, no, u, c.
      split; [reflexivity |]. split; [reflexivity |].
      unfold set_plane_on, bind at 1. rewrite Hb.
      unfold bind, gets, read, assign, read_data_source, raise. now rewrite Hc.
    + right; left. exists (e, no, u).
      split; [reflexivity |]. split; [reflexivity |].
      unfold set_plane_on, bind at 1. rewrite Hb.
      unfold bind, gets, read. now rewrite Hc.
Qed.

(** X5.  [_set_plane] writes [to_worldview] and nothing else, on every
    object: the data source, the data, the normal, the center, the
    width, the height, the size and in particular [east_vec] and
    [north_vec] are as before, so a basis chosen from the axis of the
    normal is never kept on the object.  A call that raises before line
    73 (normal or center not assigned, or the [ValueError] of line 51)
    leaves [to_worldview] as it was; once the basis is resolved and the
    center read, [to_worldview] is assigned: the finished matrix when the
    data source can be read, and the uncorrected product of line 73 when
    reading it raises at line 75. *)
Theorem set_plane_writes_worldview_only (unreadable : option exn) (p : plane) :
  let q := snd (set_plane_on unreadable p) in
  (data_source q = data_source p /\ data q = data p /\
   normal q = normal p /\ center q = center p /\
   width q = width p /\ height q = height p /\
   east_vec q = east_vec p /\ north_vec q = north_vec p /\
   size q = size p) /\
  match fst (resolve_basis p), center p with
  | inr (e, no, u), Some c =>
      to_worldview q =
      Some (match unreadable with
            | None => worldview (ds_type (data_source p)) e no u c (width p) (height p)
            | Some _ => combined e no u c (width p) (height p)
            end)
  | _, _ => to_worldview q = to_worldview p
  end.
Proof.
  destruct unreadable as [x |].
  - destruct (set_plane_on_unreadable_cases x p)
      as [(e & Hb & Hr) | [(b & Hb & Hc & Hr) | (e & no & u & c & Hb & Hc & Hr)]];
      rewrite Hr, Hb; cbn [fst snd]; rewrite ?Hc.
    + split; [repeat split | reflexivity].
    + split; [repeat split |]. now destruct b as [[e no] u].
    + split; [cbn; repeat split; assumption | reflexivity].
  - rewrite set_plane_on_readable.
    destruct (set_plane_cases p)
      as [(e & Hb & Hr) | [(b & Hb & Hc & Hr) | (e & no & u & c & Hb & Hc & Hr)]];
      rewrite Hr, Hb; cbn [fst snd]; rewrite ?Hc.
    + split; [repeat split | reflexivity].
    + split; [repeat split |]. now destruct b as [[e no] u].
    + split; [cbn; repeat split; assumption | reflexivity].
Qed.

(** X6.  [_set_plane] returns exactly when the data source can be read,
    the normal and the center are assigned, and either both in-plane
    vectors are set or the unit normal has two components equal to zero.
    The only exceptions it raises are [TraitError] (normal or center not
    assigned), the [ValueError] of line 51, and whatever reading the data
    source raises; the last happens exactly when everything else is in
    place. *)
Theorem set_plane_outcome (unreadable : option exn) (p : plane) :
  let ready :=
    exists n c : vec3,
      normal p = Some n /\ center p = Some c /\
      ((exists e no : vec3, east_vec p = Some e /\ north_vec p = Some no) \/
       axis_basis (vdiv n (norm n)) <> None) in
  let r := fst (set_plane_on unreadable p) in
  (r = inr tt <-> unreadable = None /\ ready) /\
  (ready -> forall x : exn, unreadable = Some x -> r = inl x) /\
  (~ ready -> r = inl TraitError \/ r = inl ValueError_not_normal_to_axis).
Proof.
  intros ready r.
  assert (Hready : ready <->
            exists (b : vec3 * vec3 * vec3) (c : vec3),
              resolve_basis p = (inr b, p) /\ center p = Some c).
  { subst ready. split.
    - intros (n & c & Hn & Hc & Hbasis). 
      destruct Hbasis as [(e & no & He & Hno) | Ha].
      + exists (e, no, vdiv n (norm n)), c. split; [| exact Hc].
        now apply resolve_basis_explicit.
      + destruct (east_vec p) as [e |] eqn:He; [destruct (north_vec p) as [no |] eqn:Hno |].
        * exists (e, no, vdiv n (norm n)), c. split; [| exact Hc].
          now apply resolve_basis_explicit.
        * assert (Hm : basis_missing p) by now right.
          pose proof (resolve_basis_missing p n Hn Hm) as Hb.
          destruct (axis_basis (vdiv n (norm n))) as [[ea nv] |]; [| now elim Ha].
          eexists _, c. split; [exact Hb | exact Hc].
        * assert (Hm : basis_missing p) by now left.
          pose proof (resolve_basis_missing p n Hn Hm) as Hb.
          destruct (axis_basis (vdiv n (norm n))) as [[ea nv] |]; [| now elim Ha].
          eexists _, c. split; [exact Hb | exact Hc].
    - intros (b & c & Hb & Hc).
      unfold resolve_basis, bind, read, gets in Hb.
      destruct (normal p) as [n |]; [| discriminate].
      exists n, c. split; [reflexivity |]. split; [assumption |].
      destruct (east_vec p) as [ea |]; [destruct (north_vec p) as [nv |] |].
      + left. now exists ea, nv.
      + right. destruct (axis_basis (vdiv n (norm n))); discriminate.
      + right. destruct (axis_basis (vdiv n (norm n))); [discriminate |].
        destruct (north_vec p); discriminate. }
  assert (Hcases :
    (exists e : exn, resolve_basis p = (inl e, p) /\ r = inl e) \/
    (exists b : vec3 * vec3 * vec3,
       resolve_basis p = (inr b, p) /\ center p = None /\ r = inl TraitError) \/
    (exists (b : vec3 * vec3 * vec3) (c : vec3),
       resolve_basis p = (inr b, p) /\ center p = Some c /\
       r = match unreadable with None => inr tt | Some x => inl x end)).
  { subst r. destruct unreadable as [x |].
    - destruct (set_plane_on_unreadable_cases x p)
        as [(e & Hb & Hr) | [(b & Hb & Hc & Hr) | (e & no & u & c & Hb & Hc & Hr)]];
        rewrite Hr; cbn [fst].
      + left. now exists e.
      + right; left. now exists b.
      + right; right. now exists (e, no, u), c.
    - rewrite set_plane_on_readable.
      destruct (set_plane_cases p)
        as [(e & Hb & Hr) | [(b & Hb & Hc & Hr) | (e & no & u & c & Hb & Hc & Hr)]];
        rewrite Hr; cbn [fst].
      + left. now exists e.
      + right; left. now exists b.
      + right; right. now exists (e, no, u), c. }
  destruct Hcases as [(e & Hb & Hr) | [(b & Hb & Hc & Hr) | (b & c & Hb & Hc & Hr)]].
  - assert (Hnot : ~ ready).
    { intros H. apply Hready in H. destruct H as (b & c & Hb' & _). congruence. }
    split; [| split].
    + rewrite Hr. split; [discriminate | intros [_ H]; contradiction].
    + intros H; contradiction.
    + intros _. rewrite Hr.
      destruct (resolve_basis_errors p e Hb) as [(-> & _) | (-> & _)]; [now left | now right].
  - assert (Hnot : ~ ready).
    { intros H. apply Hready in H. destruct H as (b' & c & _ & Hc'). congruence. }
    split; [| split].
    + rewrite Hr. split; [discriminate | intros [_ H]; contradiction].
    + intros H; contradiction.
    + intros _. rewrite Hr. now left.
  - assert (Hyes : ready) by (apply Hready; now exists b, c).
    split; [| split].
    + rewrite Hr. destruct unreadable as [x |].
      * split; [discriminate | intros [H _]; discriminate].
      * split; [intros _; now split | reflexivity].
    + intros _ x ->. exact Hr.
    + intros H; contradiction.
Qed.

(** ** A single in-plane vector *)

(** [p.east_vec = None; p.north_vec = None] *)
Definition without_basis (p : plane) : plane :=
  {| data_source := data_source p; data := data p; normal := normal p;
     center := center p; width := width p; height := height p;
     east_vec := None; north_vec := None;
     to_worldview := to_worldview p; size := size p |}.

(** X7.  An in-plane vector set on its own is ignored: when [east_vec] or
    [north_vec] is [None], [_set_plane] ends the same way and stores the
    same matrix as on the object with both of them [None]. *)
Theorem lone_basis_vector_is_ignored (p : plane) :
  basis_missing p ->
  fst (_set_plane p) = fst (_set_plane (without_basis p)) /\
  to_worldview (snd (_set_plane p)) =
  to_worldview (snd (_set_plane (without_basis p))).
Proof.
  intros Hm. destruct p as [ds d n c w h ev nv tw sz].
  unfold basis_missing in Hm; cbn in Hm.
  unfold _set_plane, resolve_basis, without_basis, bind, read, gets, assign, ret, raise;
    cbn.
  destruct n as [n |]; [| split; reflexivity].
  assert (Hcase : (ev = None) \/ (exists e, ev = Some e /\ nv = None)).
  { destruct ev as [e |]; [right; exists e; split; [reflexivity |] | now left].
    destruct Hm as [Hm | Hm]; [discriminate | assumption]. }
  destruct Hcase as [-> | (e & -> & ->)]; [destruct nv |];
    destruct (axis_basis (vdiv n (norm n))) as [[ea no] |];
    try (split; reflexivity);
    destruct c as [c |]; try (split; reflexivity);
    cbn; destruct (ds_class_eqb (ds_type ds) YTCuttingPlane); split; reflexivity.
Qed.

(** A plane normal to z on which only [east_vec] was set, to a vector
    that is not even in the plane. *)
Definition lone_east_scenario : plane :=
  plane_of (container YTSlice 2 5) (fin3 0 0 1) (fin3 0 0 5) 2 2
           (Some (fin3 0 0 7)) None.

Lemma lone_basis_vector_is_ignored_witness :
  basis_missing lone_east_scenario /\
  to_worldview (snd (_set_plane lone_east_scenario)) =
  to_worldview (snd (_set_plane slice_scenario)).
Proof.
  assert (Hm : basis_missing lone_east_scenario) by (right; reflexivity).
  split; [exact Hm |].
  exact (proj2 (@lone_basis_vector_is_ignored lone_east_scenario Hm)).
Defined.

(** * Further properties of [PlaneData.add_data] *)

Lemma translated_fin (t c1 c2 c3 a1 a2 a3 : R) :
  translated t (fin3 c1 c2 c3) (fin3 a1 a2 a3) =
  fin3 (c1 + t * a1) (c2 + t * a2) (c3 + t * a3).
Proof.
  unfold translated, is_nonzero, is_zero.
  destruct (Req_dec_T t 0) as [-> | _]; cbn [negb].
  - unfold fin3. repeat f_equal; ring.
  - reflexivity.
Qed.

Lemma translated_along (t c : R) (a : coord_axis) :
  translated t (along a c) (along a 1) = along a (c + t).
Proof.
  destruct a; unfold along; rewrite translated_fin; unfold fin3; repeat f_equal; ring.
Qed.



(** The object a cutting plane with finite, non-zero vectors and a finite
    center is left in by [add_data], with the matrix in closed form. *)
Lemma add_data_cutting_worldview (p : plane) (field : string) (w : R)
    (dims : nat * nat) (t : R) (n1 n2 n3 o1 o2 o3 c1 c2 c3 : R) :
  ds_type (data_source p) = YTCuttingPlane ->
  normal_vector (data_source p) = fin3 n1 n2 n3 ->
  north_vector (data_source p) = fin3 o1 o2 o3 ->
  center_value (data_source p) = fin3 c1 c2 c3 ->
  len n1 n2 n3 <> 0 -> len o1 o2 o3 <> 0 ->
  let a1 := n1 / len n1 n2 n3 in
  let a2 := n2 / len n1 n2 n3 in
  let a3 := n3 / len n1 n2 n3 in
  let b1 := o1 / len o1 o2 o3 in
  let b2 := o2 / len o1 o2 o3 in
  let b3 := o3 / len o1 o2 o3 in
  let r := add_data field w dims t p in
  fst r = inr tt /\
  center (snd r) = Some (fin3 (c1 + t * a1) (c2 + t * a2) (c3 + t * a3)) /\
  to_worldview (snd r) =
  Some (worldview YTCuttingPlane
          (fin3 (a2 * b3 - a3 * b2) (a3 * b1 - a1 * b3) (a1 * b2 - a2 * b1))
          (fin3 b1 b2 b3) (fin3 a1 a2 a3)
          (fin3 (c1 + t * a1) (c2 + t * a2) (c3 + t * a3)) w w).
Proof.
  intros Hcls Hn Ho Hc Ln Lo a1 a2 a3 b1 b2 b3 r. subst r.
  rewrite (add_data_cutting p field w dims t Hcls).
  rewrite Hn, Ho, Hc, (unit_fin3 _ _ _ Ln), (unit_fin3 _ _ _ Lo), translated_fin.
  fold a1 a2 a3 b1 b2 b3.
  match goal with |- context [BasePlane_add_data ?q] => set (p' := q) end.
  assert (L1 : len a1 a2 a3 = 1).
  { unfold len. subst a1 a2 a3. rewrite (unit_components n1 n2 n3 Ln). apply sqrt_1. }
  assert (Hb : resolve_basis p' =
               (inr (fin3 (a2 * b3 - a3 * b2) (a3 * b1 - a1 * b3) (a1 * b2 - a2 * b1),
                     fin3 b1 b2 b3, fin3 a1 a2 a3), p')).
  { rewrite (resolve_basis_explicit p' _ _ _ eq_refl eq_refl eq_refl).
    rewrite unit_fin3 by (rewrite L1; lra). rewrite L1.
    replace (a1 / 1) with a1 by field. replace (a2 / 1) with a2 by field.
    replace (a3 / 1) with a3 by field. reflexivity. }
  rewrite (base_add_data_run p' _ _ _ _ Hb eq_refl).
  change (ds_type (data_source p')) with (ds_type (data_source p)). rewrite Hcls.
  repeat split.
Qed.


(** A cutting plane with normal (0, 0, 2), north (0, 3, 0) and center
    (1, 1, 1), added to a fresh plane. *)
Definition fresh_oblique : plane :=
  {| data_source :=
       {| ds_type := YTCuttingPlane; axis := 0; coord := 0;
          normal_vector := fin3 0 0 2; north_vector := fin3 0 3 0;
          center_value := fin3 1 1 1; to_frb := fun _ _ _ => [] |};
     data := None; normal := None; center := None; width := 0; height := 0;
     east_vec := None; north_vec := None; to_worldview := None; size := (-1)%Z |}.


(** X11.  A cutting plane whose normal vector is the zero vector is not
    rejected: whatever its north vector, its center, the width and the
    offset, [add_data] returns, the normal and [east_vec] it assigns are
    [nan] in every component, and so is every entry of the matrix it
    stores. *)
Theorem zero_normal_cutting_plane_gives_nan (p : plane) (field : string) (w : R)
    (dims : nat * nat) (t : R) :
  ds_type (data_source p) = YTCuttingPlane ->
  normal_vector (data_source p) = fin3 0 0 0 ->
  let r := add_data field w dims t p in
  fst r = inr tt /\
  normal (snd r) = Some nan3 /\
  east_vec (snd r) = Some nan3 /\
  to_worldview (snd r) = Some nan_mat.
Proof.
  intros Hcls Hn r. subst r.
  rewrite (add_data_cutting p field w dims t Hcls).
  rewrite Hn, unit_zero.
  match goal with |- context [BasePlane_add_data ?q] => set (p' := q) end.
  assert (Hu : vdiv nan3 (norm nan3) = nan3) by reflexivity.
  pose proof (resolve_basis_explicit p' _ _ _ eq_refl eq_refl eq_refl) as Hb.
  rewrite Hu in Hb.
  rewrite (base_add_data_run p' _ _ _ _ Hb eq_refl).
  change (ds_type (data_source p')) with (ds_type (data_source p)). rewrite Hcls.
  cbn [fst snd normal east_vec to_worldview set_size set_to_worldview p' assigned
       set_height set_width set_normal set_center set_east_vec set_north_vec].
  repeat split.
Qed.

(** A cutting plane whose normal vector is (0, 0, 0), added to a fresh
    plane. *)
Definition fresh_degenerate : plane :=
  {| data_source :=
       {| ds_type := YTCuttingPlane; axis := 0; coord := 0;
          normal_vector := fin3 0 0 0; north_vector := fin3 0 1 0;
          center_value := fin3 1 1 1; to_frb := fun _ _ _ => [] |};
     data := None; normal := None; center := None; width := 0; height := 0;
     east_vec := None; north_vec := None; to_worldview := None; size := (-1)%Z |}.

Lemma zero_normal_cutting_plane_gives_nan_witness :
  (ds_type (data_source fresh_degenerate) = YTCuttingPlane /\
   normal_vector (data_source fresh_degenerate) = fin3 0 0 0) /\
  fst (add_data "density" 1 (400, 400)%nat 0 fresh_degenerate) = inr tt /\
  to_worldview (snd (add_data "density" 1 (400, 400)%nat 0 fresh_degenerate)) =
    Some nan_mat.
Proof.
  split; [split; reflexivity |].
  destruct (@zero_normal_cutting_plane_gives_nan fresh_degenerate "density" 1
              (400, 400)%nat 0 eq_refl eq_refl) as (Hr & _ & _ & Hw).
  split; [exact Hr | exact Hw].
Defined.


(** * The plane component ([yt_idv/scene_components/planes.py])

    The two GUI helpers of the component.  The immediate-mode GUI is taken
    as given: a widget is a function of its label and current value that
    returns whether the user changed it and the value it now shows. *)

Module Gui.

(** What the helpers read and write of a scene object: [cmap_log] and
    [colormap.colormap_name]. *)
Record scene_obj : Type := { cmap_log : bool; colormap_name : string }.

(** [imgui.checkbox(label, state)] and [imgui.listbox(label, current, items)] *)
Record imgui : Type := {
  checkbox : string -> bool -> bool * bool;
  listbox : string -> Z -> list string -> bool * Z
}.

Inductive gui_exn : Type :=
| ValueError_not_in_list      (* list.index(x): x not in list *)
| IndexError_out_of_range.    (* list index out of range *)

(** [l.index(x)]: the first position of [x]. *)
Fixpoint index (l : list string) (x : string) : option nat :=
  match l with
  | [] => None
  | y :: l' => if String.eqb y x then Some 0%nat else option_map S (index l' x)
  end.

(** [l[i]] for a Python integer: negative indices count from the end. *)
Definition getitem (l : list string) (i : Z) : option string :=
  let n := Z.of_nat (List.length l) in
  if (0 <=? i)%Z && (i <? n)%Z then nth_error l (Z.to_nat i)
  else if (- n <=? i)%Z && (i <? 0)%Z then nth_error l (Z.to_nat (i + n))
  else None.

(** Lines 8-11 *)
Definition take_log_checkbox (im : imgui) (o : scene_obj) : bool * scene_obj :=
  let '(changed, v) := checkbox im "Take log" (cmap_log o) in
  (changed, {| cmap_log := v; colormap_name := colormap_name o |}).

(** Lines 14-21; [cmaps] is the list [_cmaps] of the base component. *)
Definition colormap_list (cmaps : list string) (im : imgui) (o : scene_obj)
  : (gui_exn + bool) * scene_obj :=
  match index cmaps (colormap_name o) with
  | None => (inl ValueError_not_in_list, o)
  | Some i =>
      let '(changed, cmap_index) := listbox im "Colormap" (Z.of_nat i) cmaps in
      if changed then
        match getitem cmaps cmap_index with
        | Some name => (inr changed, {| cmap_log := cmap_log o; colormap_name := name |})
        | None => (inl IndexError_out_of_range, o)
        end
      else (inr changed, o)
  end.

(** ** Lists *)

Lemma index_nth (l : list string) (x : string) (i : nat) :
  index l x = Some i -> nth_error l i = Some x.
Proof.
  revert i. induction l as [| y l IH]; intros i; cbn; [discriminate |].
  destruct (String.eqb y x) eqn:E.
  - intros H; injection H as <-. apply String.eqb_eq in E. now rewrite E.
  - destruct (index l x) as [j |]; cbn; [| discriminate].
    intros H; injection H as <-. cbn. now apply IH.
Qed.

Lemma index_none (l : list string) (x : string) :
  index l x = None <-> ~ In x l.
Proof.
  induction l as [| y l IH]; cbn.
  - split; [intros _ [] | reflexivity].
  - destruct (String.eqb y x) eqn:E.
    + apply String.eqb_eq in E. split; [discriminate | intros H; elim H; now left].
    + apply String.eqb_neq in E. destruct (index l x) as [j |]; cbn.
      * split; [discriminate |]. intros H. exfalso.
        assert (N : ~ In x l) by (intros I; apply H; now right).
        apply IH in N. discriminate N.
      * split; [| reflexivity]. intros _ [H | H]; [contradiction |].
        now apply (proj1 IH eq_refl).
Qed.

Lemma index_first (l : list string) (x : string) (i j : nat) :
  index l x = Some i -> (j < i)%nat -> nth_error l j <> Some x.
Proof.
  revert i j. induction l as [| y l IH]; intros i j; cbn; [discriminate |].
  destruct (String.eqb y x) eqn:E.
  - intros H; injection H as <-. intros Hj. now apply PeanoNat.Nat.nlt_0_r in Hj.
  - apply String.eqb_neq in E. destruct (index l x) as [k |]; cbn; [| discriminate].
    intros H; injection H as <-. destruct j as [| j]; cbn.
    + intros _ H. injection H as H. contradiction.
    + intros Hj. apply (IH k j eq_refl). now apply PeanoNat.lt_S_n.
Qed.

Lemma getitem_in (l : list string) (i : Z) (x : string) :
  getitem l i = Some x -> In x l.
Proof.
  unfold getitem.
  destruct ((0 <=? i)%Z && (i <? Z.of_nat (List.length l))%Z).
  - apply nth_error_In.
  - destruct ((- Z.of_nat (List.length l) <=? i)%Z && (i <? 0)%Z).
    + apply nth_error_In.
    + discriminate.
Qed.

Lemma getitem_of_nat (l : list string) (i : nat) (x : string) :
  nth_error l i = Some x -> getitem l (Z.of_nat i) = Some x.
Proof.
  intros H. unfold getitem.
  assert (Hlt : (i < List.length l)%nat).
  { apply nth_error_Some. rewrite H. discriminate. }
  assert (H0 : (0 <=? Z.of_nat i)%Z = true) by (apply Z.leb_le, Nat2Z.is_nonneg).
  assert (H1 : (Z.of_nat i <? Z.of_nat (List.length l))%Z = true).
  { apply Z.ltb_lt. now apply Nat2Z.inj_lt. }
  rewrite H0, H1. cbn. now rewrite Nat2Z.id.
Qed.

End Gui.

(** ** The colormap list box *)

(** X12.  [colormap_list] keeps the colormap name inside the list, for
    every GUI: when it returns, the name it leaves (and the name it
    found) is an entry of the list, [cmap_log] is untouched, and if no
    change was reported the object is as before; when it raises, the
    object is as before. *)
Theorem colormap_list_keeps_name_listed
    (cmaps : list string) (im : Gui.imgui) (o : Gui.scene_obj) :
  match Gui.colormap_list cmaps im o with
  | (inr changed, o') =>
      In (Gui.colormap_name o) cmaps /\
      In (Gui.colormap_name o') cmaps /\
      Gui.cmap_log o' = Gui.cmap_log o /\
      (changed = false -> o' = o)
  | (inl _, o') => o' = o
  end.
Proof.
  unfold Gui.colormap_list.
  destruct (Gui.index cmaps (Gui.colormap_name o)) as [i |] eqn:Hi; [| reflexivity].
  assert (Hin : In (Gui.colormap_name o) cmaps).
  { apply Gui.index_nth in Hi. now apply nth_error_In in Hi. }
  destruct (Gui.listbox im "Colormap" (Z.of_nat i) cmaps) as [changed k].
  destruct changed.
  - destruct (Gui.getitem cmaps k) as [name |] eqn:Hk; [| reflexivity].
    cbn. split; [exact Hin |]. split; [now apply Gui.getitem_in in Hk |].
    split; [reflexivity | discriminate].
  - split; [exact Hin |]. split; [exact Hin |]. split; reflexivity.
Qed.

(** X13.  [colormap_list] raises the [ValueError] of [list.index] exactly
    when the current colormap name is not in the list, whatever the GUI
    does; the only other exception is the [IndexError] of an index the
    list box returned outside the list together with a change. *)
Theorem colormap_list_unknown_name
    (cmaps : list string) (im : Gui.imgui) (o : Gui.scene_obj) :
  (fst (Gui.colormap_list cmaps im o) = inl Gui.ValueError_not_in_list <->
   ~ In (Gui.colormap_name o) cmaps) /\
  (fst (Gui.colormap_list cmaps im o) = inl Gui.IndexError_out_of_range <->
   exists (i : nat) (k : Z),
     Gui.index cmaps (Gui.colormap_name o) = Some i /\
     Gui.listbox im "Colormap" (Z.of_nat i) cmaps = (true, k) /\
     Gui.getitem cmaps k = None).
Proof.
  unfold Gui.colormap_list.
  destruct (Gui.index cmaps (Gui.colormap_name o)) as [i |] eqn:Hi.
  - assert (Hin : In (Gui.colormap_name o) cmaps).
    { apply Gui.index_nth in Hi. now apply nth_error_In in Hi. }
    destruct (Gui.listbox im "Colormap" (Z.of_nat i) cmaps) as [changed k] eqn:Hl.
    destruct changed; [destruct (Gui.getitem cmaps k) as [name |] eqn:Hk |]; cbn.
    + split; (split; [discriminate |]).
      * intros H; now elim H.
      * intros (i' & k' & Ei & El & Eg). injection Ei as <-. rewrite Hl in El.
        injection El as <-. congruence.
    + split; [split; [discriminate | intros H; now elim H] |].
      split; [| reflexivity]. intros _. exists i, k. repeat split; assumption.
    + split; (split; [discriminate |]).
      * intros H; now elim H.
      * intros (i' & k' & Ei & El & _). injection Ei as <-. rewrite Hl in El.
        discriminate El.
  - apply Gui.index_none in Hi. cbn.
    split; [split; [intros _; exact Hi | reflexivity] |].
    split; [discriminate |]. intros (i & k & Ei & _). discriminate Ei.
Qed.

(** X14.  The list box is handed the first position of the current name,
    and that position leads back to the name: with a list box that
    returns the index it was given, [colormap_list] returns and leaves the
    object as it was, whether or not a change is reported. *)
Theorem colormap_list_round_trip
    (cmaps : list string) (im : Gui.imgui) (o : Gui.scene_obj) :
  In (Gui.colormap_name o) cmaps ->
  (forall (i : Z) (items : list string),
     snd (Gui.listbox im "Colormap" i items) = i) ->
  exists i : nat,
    Gui.index cmaps (Gui.colormap_name o) = Some i /\
    (forall j : nat, (j < i)%nat -> nth_error cmaps j <> Some (Gui.colormap_name o)) /\
    Gui.getitem cmaps (Z.of_nat i) = Some (Gui.colormap_name o) /\
    Gui.colormap_list cmaps im o =
      (inr (fst (Gui.listbox im "Colormap" (Z.of_nat i) cmaps)), o).
Proof.
  intros Hin Hecho.
  destruct (Gui.index cmaps (Gui.colormap_name o)) as [i |] eqn:Hi.
  - exists i. split; [reflexivity |].
    split; [intros j Hj; now apply (Gui.index_first cmaps _ i j Hi) |].
    pose proof (Gui.getitem_of_nat cmaps i _ (Gui.index_nth cmaps _ i Hi)) as Hg.
    split; [exact Hg |].
    unfold Gui.colormap_list. rewrite Hi.
    pose proof (Hecho (Z.of_nat i) cmaps) as He.
    destruct (Gui.listbox im "Colormap" (Z.of_nat i) cmaps) as [changed k].
    cbn in He. subst k. cbn [fst]. destruct changed; [| reflexivity].
    rewrite Hg. now destruct o.
  - apply Gui.index_none in Hi. contradiction.
Qed.

(** A GUI whose list box reports a change and returns the index it was
    given, and an object showing the second of two colormaps. *)
Definition echo_gui : Gui.imgui :=
  {| Gui.checkbox := fun _ b => (false, b);
     Gui.listbox := fun _ i _ => (true, i) |}.

Definition magma_obj : Gui.scene_obj :=
  {| Gui.cmap_log := true; Gui.colormap_name := "magma" |}.

Lemma colormap_list_round_trip_witness :
  (In (Gui.colormap_name magma_obj) ["viridis"; "magma"]%string /\
   forall (i : Z) (items : list string),
     snd (Gui.listbox echo_gui "Colormap" i items) = i) /\
  exists i : nat,
    Gui.index ["viridis"; "magma"]%string (Gui.colormap_name magma_obj) = Some i /\
    Gui.colormap_list ["viridis"; "magma"]%string echo_gui magma_obj =
      (inr (fst (Gui.listbox echo_gui "Colormap" (Z.of_nat i)
                   ["viridis"; "magma"]%string)), magma_obj).
Proof.
  assert (Hin : In (Gui.colormap_name magma_obj) ["viridis"; "magma"]%string)
    by (right; left; reflexivity).
  assert (He : forall (i : Z) (items : list string),
             snd (Gui.listbox echo_gui "Colormap" i items) = i) by reflexivity.
  split; [split; assumption |].
  destruct (@colormap_list_round_trip ["viridis"; "magma"]%string echo_gui magma_obj
              Hin He) as (i & Hi & _ & _ & Hr).
  exists i. split; [exact Hi | exact Hr].
Defined.


(** * The mesh of [BasePlane.add_data] (plane.py, lines 92-110)

    The in-plane coordinates of the vertices are their texture
    coordinates; the element array is flattened to six indices, which
    [Plane.draw] draws as triangles, three consecutive indices each. *)

Module Mesh.

(** Lines 92-97 *)
Definition verts : list (R * R) := [(1, 0); (0, 0); (0, 1); (1, 1)].

(** Lines 99-103: the rows [[0, 1, 2], [0, 2, 3]], reshaped to (6, 1). *)
Definition indices : list nat := List.concat [[0; 1; 2]; [0; 2; 3]]%nat.

Definition vertex (k : nat) : R * R := nth k verts (0, 0).

(** [GL_TRIANGLES]: one triangle for each three consecutive indices. *)
Fixpoint triangles (l : list nat) : list ((R * R) * (R * R) * (R * R)) :=
  match l with
  | i :: j :: k :: l' => (vertex i, vertex j, vertex k) :: triangles l'
  | _ => []
  end.

(** A point of the (closed) triangle: a convex combination of its
    corners. *)
Definition in_triangle (tr : (R * R) * (R * R) * (R * R)) (u v : R) : Prop :=
  let '(a, b, c) := tr in
  exists wa wb wc : R,
    0 <= wa /\ 0 <= wb /\ 0 <= wc /\ wa + wb + wc = 1 /\
    u = wa * fst a + wb * fst b + wc * fst c /\
    v = wa * snd a + wb * snd b + wc * snd c.

End Mesh.

(** X15.  The element array holds six indices, the size that
    [BasePlane.add_data] records, each of them the index of one of the
    four vertices; and the two triangles they form cover the unit
    texture square exactly: a texture point lies in one of the triangles
    if and only if both its coordinates are between 0 and 1. *)
Theorem mesh_covers_texture_square :
  Z.of_nat (List.length Mesh.indices) = 6%Z /\
  Forall (fun k => (k < List.length Mesh.verts)%nat) Mesh.indices /\
  forall u v : R,
    (exists tr, In tr (Mesh.triangles Mesh.indices) /\ Mesh.in_triangle tr u v) <->
    (0 <= u <= 1 /\ 0 <= v <= 1).
Proof.
  split; [reflexivity |].
  split.
  { unfold Mesh.indices, Mesh.verts; cbn. repeat constructor. }
  intros u v. split.
  - intros (tr & Hin & Htr). cbn in Hin.
    destruct Hin as [<- | [<- | []]]; cbn in Htr;
      destruct Htr as (wa & wb & wc & Ha & Hb & Hc & Hs & -> & ->); lra.
  - intros (Hu & Hv). destruct (Rle_dec (u + v) 1) as [Hle | Hgt].
    + exists (Mesh.vertex 0, Mesh.vertex 1, Mesh.vertex 2).
      split; [left; reflexivity |]. cbn.
      exists u, (1 - u - v), v. repeat split; lra.
    + exists (Mesh.vertex 0, Mesh.vertex 2, Mesh.vertex 3).
      split; [right; left; reflexivity |]. cbn.
      exists (1 - v), (1 - u), (u + v - 1). repeat split; lra.
Qed.


(** * [_set_plane] in IEEE arithmetic

    The matrix of lines 39-86 evaluated as numpy does: every operation
    in binary64, rounded to nearest, and the result cast entry by entry
    to binary32 at line 86.  Sums of products are accumulated from left
    to right.  This evaluation decides statements about an absolute
    tolerance, which the exact model above cannot. *)

From Stdlib Require Floats.

Module IEEE.

Import Floats.
Local Open Scope float_scope.

Definition fvec3 : Type := float * float * float.
Definition fvec : Type := list float.
Definition fmat : Type := list fvec.

(** One entry of [m.astype("f4")]: the nearest binary32 number, ties to
    even, overflowing to an infinity; zeros, infinities and [nan] are
    kept.  The result is held as the binary64 number of the same value. *)
Definition to_f32 (x : float) : float :=
  match Prim2SF x with
  | S754_finite s m e => SF2Prim (binary_round 24 128 s m e)
  | _ => x
  end.

Definition astype_f4 (m : fmat) : fmat := map (map to_f32) m.

(** [np.eye(n)] *)
Definition eye (n : nat) : fmat :=
  map (fun i => map (fun j => if Nat.eqb i j then 1 else 0) (seq 0 n)) (seq 0 n).

(** [m[i, j] = x] *)
Definition set_entry (m : fmat) (i j : nat) (x : float) : fmat :=
  set_nth m i (set_nth (nth i m []) j x).

(** [m[0:3, j] = v] *)
Definition set_col3 (m : fmat) (j : nat) (v : fvec3) : fmat :=
  let '(x, y, z) := v in
  set_entry (set_entry (set_entry m 0 j x) 1 j y) 2 j z.

Definition vdot (a b : fvec) : float :=
  match map (fun p => fst p * snd p) (combine a b) with
  | [] => 0
  | t :: ts => fold_left add ts t
  end.

Definition column (m : fmat) (j : nat) : fvec := map (fun row => nth j row nan) m.

(** [np.matmul] *)
Definition matmul (a b : fmat) : fmat :=
  map (fun row => map (fun j => vdot row (column b j)) (seq 0 (List.length (hd [] b)))) a.

Definition matvec (a : fmat) (v : fvec) : fvec := map (fun row => vdot row v) a.

(** [np.linalg.norm] *)
Definition norm (v : fvec3) : float :=
  let '(x, y, z) := v in sqrt (x * x + y * y + z * z).

Definition vdiv (v : fvec3) (k : float) : fvec3 :=
  let '(x, y, z) := v in (x / k, y / k, z / k).

Definition vsub (a b : fvec3) : fvec3 :=
  let '(x, y, z) := a in let '(x', y', z') := b in (x - x', y - y', z - z').

Definition head3 (v : fvec) : fvec3 := (nth 0 v nan, nth 1 v nan, nth 2 v nan).

(** Lines 41-52 *)
Definition axis_basis (unit_normal : fvec3) : option (fvec3 * fvec3) :=
  let '(x, y, z) := unit_normal in
  if (x =? 0) && (y =? 0) then Some ((1, 0, 0), (0, 1, 0))
  else if (y =? 0) && (z =? 0) then Some ((0, 1, 0), (0, 0, 1))
  else if (x =? 0) && (z =? 0) then Some ((1, 0, 0), (0, 0, 1))
  else None.

(** The centre of the texture square, [np.array([0.5, 0.5, 0., 1.])]. *)
Definition tex_center : fvec := [0.5; 0.5; 0; 1].

(** Lines 39-86: what [_set_plane] stores in [to_worldview], or the
    exception of line 51.  [cutting] is the test of line 75. *)
Definition to_worldview (normal center : fvec3) (width height : float)
    (east_vec north_vec : option fvec3) (cutting : bool) : exn + fmat :=
  let unit_normal := vdiv normal (norm normal) in
  let basis :=
    match east_vec, north_vec with
    | Some east, Some north => Some (east, north)
    | _, _ => axis_basis unit_normal
    end in
  match basis with
  | None => inl ValueError_not_normal_to_axis
  | Some (east, north) =>
      let scale := set_entry (set_entry (eye 4) 0 0 width) 1 1 height in
      let to_world := set_col3 (set_col3 (set_col3 (eye 4) 0 east) 1 north) 2 unit_normal in
      let translate := set_col3 (eye 4) 3 center in
      let m := matmul translate (matmul to_world scale) in
      let m :=
        if cutting then
          let true_center := matvec m tex_center in
          let extra_translate := set_col3 (eye 4) 3 (vsub center (head3 true_center)) in
          matmul extra_translate m
        else m in
      inr (astype_f4 m)
  end.

(** The binary64 numbers nearest to 1000.1, 2000.2, 3000.3 and 1e-5. *)
Definition c1000_1 : float := 0x1.f40cccccccccdp+9.
Definition c2000_2 : float := 0x1.f40cccccccccdp+10.
Definition c3000_3 : float := 0x1.770999999999ap+11.
Definition tol_1e_5 : float := 0x1.4f8b588e368f1p-17.

(** The quotient of line 39 for the zero vector, and for a vector so
    small that the sum of squares underflows to zero. *)
Lemma zero_normal_quotient :
  vdiv (0, 0, 0) (norm (0, 0, 0)) = (nan, nan, nan).
Proof. vm_compute. reflexivity. Qed.

Lemma tiny_normal_quotient :
  norm (0x1p-700, 0, 0) = 0 /\
  vdiv (0x1p-700, 0, 0) (norm (0x1p-700, 0, 0)) = (infinity, nan, nan).
Proof. split; vm_compute; reflexivity. Qed.

(** An infinite width leaves a [nan] in the bottom row. *)
Lemma infinite_width_bottom_row :
  exists m : fmat,
    to_worldview (0, 0, 1) (0, 0, 5) infinity 2 None None false = inr m /\
    map is_nan (nth 3 m []) = [true; false; false; false].
Proof.
  eexists. split; vm_compute; reflexivity.
Qed.

(** C1, as stated, fails: for the cutting plane with normal (0, 0, 1),
    east (1, 0, 0), north (0, 1, 0), width = height = 1 and center
    (1000.1, 2000.2, 3000.3), the matrix stored in single precision maps
    the centre of the texture square to a point whose third coordinate is
    more than 4e-5 away from that of the center, hence not within 1e-5. *)
Lemma cutting_plane_single_precision_counterexample :
  exists m : fmat,
    to_worldview (0, 0, 1) (c1000_1, c2000_2, c3000_3) 1 1
      (Some (1, 0, 0)) (Some (0, 1, 0)) true = inr m /\
    (abs (nth 2 (matvec m tex_center) nan - c3000_3) <=? tol_1e_5) = false /\
    (4 * tol_1e_5 <? abs (nth 2 (matvec m tex_center) nan - c3000_3)) = true.
Proof.
  eexists. split; [vm_compute; reflexivity |].
  split; vm_compute; reflexivity.
Qed.

(** In the scenario with center (3, 3, 3) every number involved is a
    binary32 number, and the stored matrix maps the centre of the texture
    square to the center exactly. *)
Lemma cutting_scenario_single_precision :
  exists m : fmat,
    to_worldview (1, 0, 0) (3, 3, 3) 2 2 (Some (0, -1, 0)) (Some (0, 0, 1)) true
    = inr m /\
    matvec m tex_center = [3; 3; 3; 1].
Proof.
  eexists. split; vm_compute; reflexivity.
Qed.

End IEEE.
